(** * The asset selling model (AssetSelling/AssetSellingModel.py)

    A shallow embedding of the class [AssetSellingModel]: its constructor,
    [build_state], [build_decision], [exog_info_fn], [transition_fn],
    [objective_fn] and [step], followed by the properties of the model
    stated in its specification.

    Conventions of the embedding.
    - Python numbers (int and float) are exact rationals [Q]; rounding,
      infinities and NaN of IEEE doubles are outside the model.
    - Python exceptions are results [Raise e]; a method of the class is a
      function from the object before the call to a result and the object
      after the call, so that what a failing call has already mutated stays
      visible.
    - The numpy random generator is an interface ([Generator]) with the two
      draws the class uses. *)

From Stdlib Require Import ZArith QArith Lqa List Ascii String.
From stdpp Require Import base option list gmap strings.

Local Open Scope string_scope.

(** ** Python values, exceptions *)

Inductive exn : Type :=
| KeyError (k : string)
| AttributeError (a : string)
| TypeError
| ValueError.

Inductive result (A : Type) : Type :=
| Ok (a : A)
| Raise (e : exn).
Arguments Ok {A} a.
Arguments Raise {A} e.

Definition is_ok {A} (r : result A) : bool :=
  match r with Ok _ => true | Raise _ => false end.

Definition result_bind {A B} (r : result A) (k : A -> result B) : result B :=
  match r with Ok a => k a | Raise e => Raise e end.

(** The scalar values a state or decision field can hold. *)
Inductive value : Type :=
| VNum (q : Q)
| VBool (b : bool)
| VStr (s : string)
| VNone.

(** Python's numeric tower: [True] and [False] are the numbers 1 and 0. *)
Definition as_num (v : value) : option Q :=
  match v with
  | VNum q => Some q
  | VBool b => Some (if b then 1%Q else 0%Q)
  | VStr _ | VNone => None
  end.

(** [a == b] *)
Definition py_eq (a b : value) : bool :=
  match as_num a, as_num b with
  | Some x, Some y => Qeq_bool x y
  | None, None =>
      match a, b with
      | VStr s, VStr t => bool_decide (s = t)
      | VNone, VNone => true
      | _, _ => false
      end
  | _, _ => false
  end.

(** [a != b] *)
Definition py_ne (a b : value) : bool := negb (py_eq a b).

(** [x < y] and [x >= y] on numbers. *)
Definition Qltb (x y : Q) : bool :=
  match (x ?= y)%Q with Lt => true | _ => false end.
Definition Qgeb (x y : Q) : bool :=
  match (x ?= y)%Q with Lt => false | _ => true end.

(** A value used where a float is required (an operand of float arithmetic,
    an argument of [normal]). Numbers are exact here: an int too large for a
    float, on which the program raises [OverflowError], is outside the model
    (see [in_float_range]). *)
Definition to_float (v : value) : result Q :=
  match as_num v with Some q => Ok q | None => Raise TypeError end.

Fixpoint str_repeat (s : string) (n : nat) : string :=
  match n with O => "" | S k => s ++ str_repeat s k end.

(** [v * n] for an int [n]: a product of numbers, or a repeated string. *)
Definition py_mul_int (v : value) (n : Z) : result value :=
  match v with
  | VNum q => Ok (VNum (q * inject_Z n))
  | VBool b => Ok (VNum ((if b then 1 else 0) * inject_Z n))
  | VStr s => Ok (VStr (str_repeat s (Z.to_nat n)))
  | VNone => Raise TypeError
  end.

(** ** Dictionaries, named tuples, data frames *)

(** [d[k]] on a dict. *)
Definition getitem {V} (d : gmap string V) (k : string) : result V :=
  match d !! k with Some v => Ok v | None => Raise (KeyError k) end.

(** An instance of a [namedtuple] class: the field names with their values,
    in the order of the schema. *)
Definition namedtuple : Type := list (string * value).

Fixpoint assoc {V} (k : string) (l : list (string * V)) : option V :=
  match l with
  | [] => None
  | (k', v) :: r => if bool_decide (k' = k) then Some v else assoc k r
  end.

(** [t.a] *)
Definition getattr (t : namedtuple) (a : string) : result value :=
  match assoc a t with Some v => Ok v | None => Raise (AttributeError a) end.

(** Field names of a [namedtuple] class: ASCII identifiers (letters, digits
    and underscores, not starting with a digit) that are not keywords of the
    language and do not start with an underscore. *)
Definition is_letter (a : ascii) : bool :=
  let n := nat_of_ascii a in
  ((65 <=? n)%nat && (n <=? 90)%nat) || ((97 <=? n)%nat && (n <=? 122)%nat).

Definition is_digit (a : ascii) : bool :=
  let n := nat_of_ascii a in (48 <=? n)%nat && (n <=? 57)%nat.

Definition is_underscore (a : ascii) : bool := (nat_of_ascii a =? 95)%nat.

Fixpoint all_chars (f : ascii -> bool) (s : string) : bool :=
  match s with
  | EmptyString => true
  | String a r => f a && all_chars f r
  end.

Definition isidentifier (s : string) : bool :=
  match s with
  | EmptyString => false
  | String a r =>
      (is_letter a || is_underscore a) &&
      all_chars (fun c => is_letter c || is_digit c || is_underscore c) r
  end.

Definition keywords : list string :=
  ["False"; "None"; "True"; "and"; "as"; "assert"; "async"; "await";
   "break"; "class"; "continue"; "def"; "del"; "elif"; "else"; "except";
   "finally"; "for"; "from"; "global"; "if"; "import"; "in"; "is"; "lambda";
   "nonlocal"; "not"; "or"; "pass"; "raise"; "return"; "try"; "while";
   "with"; "yield"].

Definition valid_field_name (s : string) : bool :=
  isidentifier s && negb (bool_decide (s ∈ keywords)) &&
  match s with
  | String a _ => negb (is_underscore a)
  | EmptyString => true
  end.

(** A pandas Series of floats indexed by labels, and a DataFrame as its rows
    (index label, then the row as a Series over the column labels, in column
    order). *)
Definition Series : Type := list (string * Q).
Definition DataFrame : Type := list (string * Series).

Fixpoint cumsum_from (acc : Q) (s : Series) : Series :=
  match s with
  | [] => []
  | (k, x) :: r => (k, (acc + x)%Q) :: cumsum_from (acc + x)%Q r
  end.

(** Running sums along a row, left to right in column order. *)
Definition series_cumsum (s : Series) : Series :=
  match s with
  | [] => []
  | (k, x) :: r => (k, x) :: cumsum_from x r
  end.

(** [df.cumsum(axis=1)] *)
Definition cumsum_axis1 (df : DataFrame) : DataFrame :=
  map (fun row => (fst row, series_cumsum (snd row))) df.

(** [df.T[b]]: the column labelled [b] of the transposed frame, which is the
    row labelled [b] of [df]; a label that is not a string of the index, or
    not in it, is a [KeyError]. The labels of a frame are taken to be
    distinct (see [distinct_labels]). *)
Definition frame_T_getitem (df : DataFrame) (b : value) : result Series :=
  match b with
  | VStr l =>
      match assoc l df with Some s => Ok s | None => Raise (KeyError l) end
  | _ => Raise (KeyError "")
  end.

(** [s[k]] on a Series. *)
Definition series_getitem (s : Series) (k : string) : result Q :=
  match assoc k s with Some x => Ok x | None => Raise (KeyError k) end.

(** An entry of the [exog_params] dict: a scalar or the [biasdf] table. *)
Inductive param : Type :=
| PVal (v : value)
| PFrame (df : DataFrame).

(** [p.cumsum(axis=1)] on an entry: only a frame has the method. *)
Definition param_cumsum (p : param) : result DataFrame :=
  match p with
  | PFrame df => Ok (cumsum_axis1 df)
  | PVal _ => Raise (AttributeError "cumsum")
  end.

(** [p.T] on an entry. *)
Definition param_T (p : param) : result DataFrame :=
  match p with
  | PFrame df => Ok df
  | PVal _ => Raise (AttributeError "T")
  end.

(** A scalar entry; a frame where a number is expected is a [TypeError]. *)
Definition param_value (p : param) : result value :=
  match p with
  | PVal v => Ok v
  | PFrame _ => Raise TypeError
  end.

(** ** The random source *)

(** [numpy.random.Generator] as the class uses it: seeding, a uniform draw
    in [0, 1) and a standard normal draw, each returning the generator after
    the draw. *)
Class Generator (G : Type) : Type := {
  default_rng : Z -> G;
  uniform : G -> Q * G;
  standard_normal : G -> Q * G;
  uniform_range : forall g, (0 <= fst (uniform g) /\ fst (uniform g) < 1)%Q
}.

(** [g.normal(loc, scale)]: the arguments are validated first (numbers, and
    [scale >= 0]), then one standard normal draw [z] gives [loc + scale * z]. *)
Definition normal `{Generator G} (loc scale : value) (g : G) : result Q * G :=
  match to_float loc with
  | Raise e => (Raise e, g)
  | Ok l =>
      match to_float scale with
      | Raise e => (Raise e, g)
      | Ok s =>
          if Qltb s 0 then (Raise ValueError, g)
          else let zg := standard_normal g in
               (Ok (l + s * fst zg)%Q, snd zg)
      end
  end.

(** ** The model object *)

Section AssetSelling.

Context {G : Type} `{Generator G}.

(** The attributes of an [AssetSellingModel] instance; the three entries of
    the [initial_args] dict are the first three fields. The classes [State]
    and [Decision] are determined by [state_variable] and
    [decision_variable]. *)
Record Model : Type := mkModel {
  initial_args_seed : Z;
  initial_args_T : Z;
  initial_args_exog_params : gmap string param;
  prng : G;
  initial_state : gmap string value;
  state_variable : list string;
  decision_variable : list string;
  state : namedtuple;
  objective : Q
}.

Definition with_prng (g : G) (m : Model) : Model :=
  mkModel (initial_args_seed m) (initial_args_T m) (initial_args_exog_params m)
    g (initial_state m) (state_variable m) (decision_variable m)
    (state m) (objective m).

Definition with_state (s : namedtuple) (m : Model) : Model :=
  mkModel (initial_args_seed m) (initial_args_T m) (initial_args_exog_params m)
    (prng m) (initial_state m) (state_variable m) (decision_variable m)
    s (objective m).

Definition with_objective (o : Q) (m : Model) : Model :=
  mkModel (initial_args_seed m) (initial_args_T m) (initial_args_exog_params m)
    (prng m) (initial_state m) (state_variable m) (decision_variable m)
    (state m) o.

(** A method body: from the object before the call to the outcome and the
    object after the call. *)
Definition prog (A : Type) : Type := Model -> result A * Model.

Definition ret {A} (a : A) : prog A := fun m => (Ok a, m).

Definition lift {A} (r : result A) : prog A := fun m => (r, m).

Definition bind {A B} (c : prog A) (k : A -> prog B) : prog B :=
  fun m =>
    match c m with
    | (Ok a, m') => k a m'
    | (Raise e, m') => (Raise e, m')
    end.

Definition gets {A} (f : Model -> A) : prog A := fun m => (Ok (f m), m).

Definition modify (f : Model -> Model) : prog unit := fun m => (Ok tt, f m).

Notation "x <- c ;; k" := (bind c (fun x => k))
  (at level 100, c at next level, right associativity).
Notation "c ;;; k" := (bind c (fun _ => k))
  (at level 100, right associativity).

(** [self.prng.uniform()] *)
Definition prng_uniform : prog Q :=
  fun m => let cg := uniform (prng m) in (Ok (fst cg), with_prng (snd cg) m).

(** [self.prng.normal(loc, scale)] with the arguments read from
    [exog_params]. *)
Definition prng_normal (loc scale : param) : prog Q :=
  fun m =>
    match param_value loc with
    | Raise e => (Raise e, m)
    | Ok l =>
        match param_value scale with
        | Raise e => (Raise e, m)
        | Ok s =>
            let rg := normal l s (prng m) in
            (fst rg, with_prng (snd rg) m)
        end
    end.

(** [[info[k] for k in fields]], paired with the field names. *)
Fixpoint build_tuple (fields : list string) (info : gmap string value)
  : result namedtuple :=
  match fields with
  | [] => Ok []
  | k :: r =>
      result_bind (getitem info k) (fun v =>
      result_bind (build_tuple r info) (fun t => Ok ((k, v) :: t)))
  end.

(** [build_state(info)]: the [State] instance with the values [info[k]]
    for [k] in [self.state_variable]. *)
Definition build_state (info : gmap string value) : prog namedtuple :=
  fields <- gets state_variable ;;
  lift (build_tuple fields info).

(** [build_decision(info)], the same with the decision schema. *)
Definition build_decision (info : gmap string value) : prog namedtuple :=
  fields <- gets decision_variable ;;
  lift (build_tuple fields info).

(** The branch of [exog_info_fn] on the uniform draw: the new regime and
    the drift of the price change. *)
Definition choose_bias (exog_params : gmap string param) (biasprob : Series)
    (coin : Q) : result (string * param) :=
  result_bind (series_getitem biasprob "Up") (fun up =>
  if Qltb coin up then
    result_bind (getitem exog_params "UpStep") (fun bias => Ok ("Up", bias))
  else
    result_bind (series_getitem biasprob "Up") (fun up' =>
    result_bind
      (if Qgeb coin up' then
         result_bind (series_getitem biasprob "Neutral") (fun neutral =>
         Ok (Qltb coin neutral))
       else Ok false) (fun in_neutral =>
    if in_neutral : bool then Ok ("Neutral", PVal (VNum 0))
    else
      result_bind (getitem exog_params "DownStep") (fun bias =>
      Ok ("Down", bias))))).

(** [exog_info_fn()]: the row of the cumulated table for the current
    regime, a uniform draw to select the next regime and its drift, a normal
    draw around the drift for the price change, and the new price, which is
    0 where the sum is negative. *)
Definition exog_info_fn : prog (gmap string value) :=
  exog_params <- gets initial_args_exog_params ;;
  biasdf <- lift (result_bind (getitem exog_params "biasdf") param_T) ;;
  st <- gets state ;;
  b <- lift (getattr st "bias") ;;
  biasprob <- lift (frame_T_getitem biasdf b) ;;
  coin <- prng_uniform ;;
  nb <- lift (choose_bias exog_params biasprob coin) ;;
  variance <- lift (getitem exog_params "Variance") ;;
  price_delta <- prng_normal (snd nb) variance ;;
  st <- gets state ;;
  price <- lift (getattr st "price") ;;
  p <- lift (to_float price) ;;
  let updated_price := (p + price_delta)%Q in
  let new_price := if Qltb updated_price 0 then 0%Q else updated_price in
  ret (<["price" := VNum new_price]> (<["bias" := VStr (fst nb)]> ∅)).

(** The smoothing weight [alpha = 0.7] of [transition_fn]. *)
Definition alpha : Q := 7 # 10.

(** [transition_fn(decision, exog_info)]: the dict of the new resource and
    the new smoothed price. *)
Definition transition_fn (decision : namedtuple)
    (exog_info : gmap string value) : prog (gmap string value) :=
  sell <- lift (getattr decision "sell") ;;
  new_resource <-
    (if py_eq sell (VNum 1) then ret (VNum 0)
     else st <- gets state ;; lift (getattr st "resource")) ;;
  st <- gets state ;;
  ps <- lift (getattr st "price_smoothed") ;;
  ps <- lift (to_float ps) ;;
  np <- lift (getitem exog_info "price") ;;
  np <- lift (to_float np) ;;
  let new_price_smoothed := ((1 - alpha) * ps + alpha * np)%Q in
  ret (<["resource" := new_resource]>
         (<["price_smoothed" := VNum new_price_smoothed]> ∅)).

(** [objective_fn(decision, exog_info)]: the price of the current state
    times [sell_size]; the resource is read only when [decision.sell == 1]. *)
Definition objective_fn (decision : namedtuple)
    (exog_info : gmap string value) : prog value :=
  sell <- lift (getattr decision "sell") ;;
  sell_size <-
    (if py_eq sell (VNum 1) then
       st <- gets state ;;
       r <- lift (getattr st "resource") ;;
       ret (if py_ne r (VNum 0) then 1%Z else 0%Z)
     else ret 0%Z) ;;
  st <- gets state ;;
  price <- lift (getattr st "price") ;;
  lift (py_mul_int price sell_size).

(** [step(decision)]: the generator, then [self.objective += ...] with the
    state not yet replaced, then the transition, whose dict updates the
    generator's, then the new state built from that dict and returned. *)
Definition step (decision : namedtuple) : prog namedtuple :=
  exog_info <- exog_info_fn ;;
  obj <- gets objective ;;
  obj_part <- objective_fn decision exog_info ;;
  obj_part <- lift (to_float obj_part) ;;
  modify (with_objective (obj + obj_part)%Q) ;;;
  upd <- transition_fn decision exog_info ;;
  let exog_info := upd ∪ exog_info in
  s <- build_state exog_info ;;
  modify (with_state s) ;;;
  gets state.

(** Successive calls of [step], one per decision, stopping at the first
    exception: the states returned, in order. *)
Fixpoint run (ds : list namedtuple) : prog (list namedtuple) :=
  match ds with
  | [] => ret []
  | d :: r => s <- step d ;; ss <- run r ;; ret (s :: ss)
  end.

(** [namedtuple(name, fields)] rejects a field name that is not an
    identifier, is a keyword or starts with an underscore, and a name that
    occurs twice. *)
Definition namedtuple_class (fields : list string) : result unit :=
  if forallb valid_field_name fields && bool_decide (NoDup fields)
  then Ok tt else Raise ValueError.

(** [AssetSellingModel(state_variable, decision_variable, state_0, exog_0, T,
    seed)]. The dict [exog_0] is stored in [initial_args] and updated in
    place, so the caller's object changes too: the second component is that
    object after the call. The model holds that object and no copy of it:
    [sharing] gives the model at a later content of the object. *)
Definition init (state_variable decision_variable : list string)
    (state_0 : gmap string value) (exog_0 : gmap string param) (T seed : Z)
  : result Model * gmap string param :=
  match result_bind (getitem exog_0 "biasdf") param_cumsum with
  | Raise e => (Raise e, exog_0)
  | Ok biasdf =>
      let exog_params := <["biasdf" := PFrame biasdf]> exog_0 in
      (result_bind (if (seed <? 0)%Z then Raise ValueError else Ok tt) (fun _ =>
       result_bind (namedtuple_class state_variable) (fun _ =>
       result_bind (build_tuple state_variable state_0) (fun st =>
       result_bind (namedtuple_class decision_variable) (fun _ =>
       Ok (mkModel seed T exog_params (default_rng seed) state_0
             state_variable decision_variable st 0%Q))))),
       exog_params)
  end.

(** The defaults [T=10] and [seed=42] of the constructor. *)
Definition default_T : Z := 10.
Definition default_seed : Z := 42.

End AssetSelling.

Arguments Model G : clear implicits.
Arguments prog G A : clear implicits.

(** ** Notions used in the statements *)

Section Notions.

Context {G : Type} `{Generator G}.

Implicit Types (m : Model G) (d : namedtuple).

(** [m'] differs from [m] at most in the state, the objective and the random
    source. *)
Definition same_config m m' : Prop :=
  initial_args_seed m' = initial_args_seed m /\
  initial_args_T m' = initial_args_T m /\
  initial_args_exog_params m' = initial_args_exog_params m /\
  initial_state m' = initial_state m /\
  state_variable m' = state_variable m /\
  decision_variable m' = decision_variable m.

(** [m'] differs from [m] at most in the random source. *)
Definition only_prng_changed m m' : Prop :=
  same_config m m' /\ state m' = state m /\ objective m' = objective m.

Definition preserves {A} (R : Model G -> Model G -> Prop) (c : prog G A)
  : Prop := forall m, R m (snd (c m)).

(** The price the generator returns, from the current price and the draw. *)
Definition clamp (updated_price : Q) : Q :=
  if Qltb updated_price 0 then 0%Q else updated_price.

(** The int [sell_size] of [objective_fn]. *)
Definition sell_size (sell resource : value) : Z :=
  if py_eq sell (VNum 1) && py_ne resource (VNum 0) then 1%Z else 0%Z.

(** The dict [transition_fn] returns. *)
Definition transition_update (sellv resource : value) (ps np : Q)
  : gmap string value :=
  <["resource" := if py_eq sellv (VNum 1) then VNum 0 else resource]>
    (<["price_smoothed" := VNum ((1 - alpha) * ps + alpha * np)]> ∅).

Definition regimes : list string := ["Up"; "Neutral"; "Down"].

(** The keys of the dict from which [step] builds the next state. *)
Definition state_fields : list string :=
  ["price"; "bias"; "resource"; "price_smoothed"].

(** A scalar entry of [exog_params] that is a number. *)
Definition num_param (ep : gmap string param) (k : string) (q : Q) : Prop :=
  exists v, ep !! k = Some (PVal v) /\ as_num v = Some q.

Record well_formed m : Prop := {
  wf_biasdf :
    exists df,
      initial_args_exog_params m !! "biasdf" = Some (PFrame df) /\
      forall r, In r regimes ->
        exists row up neutral,
          assoc r df = Some row /\ assoc "Up" row = Some up /\
          assoc "Neutral" row = Some neutral;
  wf_up_step : exists q, num_param (initial_args_exog_params m) "UpStep" q;
  wf_down_step :
    exists q, num_param (initial_args_exog_params m) "DownStep" q;
  wf_variance :
    exists q, num_param (initial_args_exog_params m) "Variance" q /\
              (0 <= q)%Q;
  wf_schema : Forall (fun k => In k state_fields) (state_variable m);
  wf_state : map fst (state m) = state_variable m;
  wf_resource : exists r, assoc "resource" (state m) = Some r;
  wf_price :
    exists v q, assoc "price" (state m) = Some v /\ as_num v = Some q;
  wf_price_smoothed :
    exists v q, assoc "price_smoothed" (state m) = Some v /\
                as_num v = Some q;
  wf_bias :
    exists b, assoc "bias" (state m) = Some (VStr b) /\ In b regimes
}.

(** Arguments of the constructor from which every step can run: a table
    with a row per regime and the columns Up and Neutral, numeric drifts, a
    numeric scale that is not negative, a state schema within the four
    fields [step] produces, and an initial state with a resource, numeric
    prices and a regime. *)
Record valid_arguments (sv dv : list string) (s0 : gmap string value)
    (e0 : gmap string param) (seed : Z) : Prop := {
  va_biasdf :
    exists df,
      e0 !! "biasdf" = Some (PFrame df) /\
      forall r, In r regimes ->
        exists row up neutral,
          assoc r df = Some row /\ assoc "Up" row = Some up /\
          assoc "Neutral" row = Some neutral;
  va_up_step : exists q, num_param e0 "UpStep" q;
  va_down_step : exists q, num_param e0 "DownStep" q;
  va_variance : exists q, num_param e0 "Variance" q /\ (0 <= q)%Q;
  va_seed : (0 <= seed)%Z;
  va_state_names : forallb valid_field_name sv = true /\ NoDup sv;
  va_decision_names : forallb valid_field_name dv = true /\ NoDup dv;
  va_schema : forall k, In k sv <-> In k state_fields;
  va_resource : is_Some (s0 !! "resource");
  va_price : exists v q, s0 !! "price" = Some v /\ as_num v = Some q;
  va_price_smoothed :
    exists v q, s0 !! "price_smoothed" = Some v /\ as_num v = Some q;
  va_bias : exists b, s0 !! "bias" = Some (VStr b) /\ In b regimes
}.

(** The dict [step] passes to [build_state]: the generator's output updated
    with the result of [transition_fn]. *)
Definition next_info (new_resource : value) (new_price_smoothed : Q)
    (new_price : Q) (new_bias : string) : gmap string value :=
  <["resource" := new_resource]>
    (<["price_smoothed" := VNum new_price_smoothed]> ∅)
  ∪ <["price" := VNum new_price]> (<["bias" := VStr new_bias]> ∅).

(** The state is an instance of the [State] class of the model. *)
Definition conforms m : Prop := map fst (state m) = state_variable m.

Definition has_sell (d : namedtuple) : Prop := is_Some (assoc "sell" d).

(** The reward of the specification: the price when selling an asset that is
    held, zero otherwise. *)
Definition reward (price : Q) (sellv resource : value) : Q :=
  if py_eq sellv (VNum 1) && py_ne resource (VNum 0) then price else 0%Q.

Definition price_nonneg (s : namedtuple) : Prop :=
  exists q, assoc "price" s = Some (VNum q) /\ (0 <= q)%Q.

(** The random source after one step: a uniform draw, then a normal draw. *)
Definition two_draws (g : G) : G := snd (standard_normal (snd (uniform g))).

Definition resource_is_zero (s : namedtuple) : Prop :=
  exists r, assoc "resource" s = Some r /\ py_eq r (VNum 0) = true.

(** The resource of a state as a number, when it is one. *)
Definition resource_num (s : namedtuple) : option Q :=
  match assoc "resource" s with Some r => as_num r | None => None end.

Definition resource_between (lo hi : Q) (s : namedtuple) : Prop :=
  exists q, resource_num s = Some q /\ (lo <= q /\ q <= hi)%Q.


End Notions.

(** ** A small concrete generator

    A full-period linear congruential generator modulo 16, used to run the
    model on concrete inputs: the uniform draw is [s/16] and the standard
    normal draw is [(s - 8)/4] for the current residue [s]. *)

Record lcg : Type := mkLcg { lcg_state : Z }.

Definition lcg_next (g : lcg) : lcg := mkLcg ((5 * lcg_state g + 3) mod 16).

Definition lcg_uniform (g : lcg) : Q * lcg :=
  ((lcg_state g mod 16) # 16, lcg_next g).

Definition lcg_standard_normal (g : lcg) : Q * lcg :=
  ((lcg_state g mod 16 - 8) # 4, lcg_next g).

#[export] Instance lcg_generator : Generator lcg.
Proof.
  refine {| default_rng seed := mkLcg (seed mod 16);
            uniform := lcg_uniform;
            standard_normal := lcg_standard_normal |}.
  intros g.
  destruct (Z.mod_pos_bound (lcg_state g) 16) as [Hlo Hhi]; [lia|].
  unfold lcg_uniform, Qle, Qlt; simpl. lia.
Defined.

(** The inputs of the scenario of the specification. *)
Definition demo_state_variable : list string :=
  ["resource"; "price"; "price_smoothed"; "bias"].
Definition demo_decision_variable : list string := ["sell"].

Definition demo_state_0 : gmap string value :=
  <["resource" := VNum 1]> (<["price" := VNum 10]>
  (<["price_smoothed" := VNum 10]> (<["bias" := VStr "Neutral"]> ∅))).

Definition demo_biasdf : DataFrame :=
  [ ("Up",      [("Up", 9 # 10); ("Neutral", 1 # 10); ("Down", 0 # 1)]);
    ("Neutral", [("Up", 3 # 10); ("Neutral", 4 # 10); ("Down", 3 # 10)]);
    ("Down",    [("Up", 0 # 1);  ("Neutral", 1 # 10); ("Down", 9 # 10)]) ].

Definition demo_exog_0 : gmap string param :=
  <["biasdf" := PFrame demo_biasdf]> (<["UpStep" := PVal (VNum 1)]>
  (<["DownStep" := PVal (VNum (-1))]> (<["Variance" := PVal (VNum 2)]> ∅))).

Definition hold_now : namedtuple := [("sell", VNum 0)].
Definition sell_now : namedtuple := [("sell", VNum 1)].

Definition scenario_decisions : list namedtuple :=
  [hold_now; hold_now; hold_now; hold_now; sell_now].

(** A sale at the second step and another attempt at the fourth. *)
Definition sell_twice_decisions : list namedtuple :=
  [hold_now; sell_now; hold_now; sell_now].

Definition demo_init : result (Model lcg) * gmap string param :=
  init demo_state_variable demo_decision_variable demo_state_0 demo_exog_0
    default_T default_seed.

Definition from_ok {A} (d : A) (r : result A) : A :=
  match r with Ok a => a | Raise _ => d end.

Definition demo_model : Model lcg :=
  from_ok (mkModel 0 0 ∅ (mkLcg 0) ∅ [] [] [] 0) (fst demo_init).

(** Inputs on which statements of the specification are tried. *)

(** A table whose rows give no mass to Neutral, and a seed whose first
    uniform draw is one half: the draw is equal to the Up threshold. *)
Definition tie_biasdf : DataFrame :=
  [ ("Up",      [("Up", 1 # 2); ("Neutral", 0 # 1); ("Down", 1 # 2)]);
    ("Neutral", [("Up", 1 # 2); ("Neutral", 0 # 1); ("Down", 1 # 2)]);
    ("Down",    [("Up", 1 # 2); ("Neutral", 0 # 1); ("Down", 1 # 2)]) ].

Definition tie_exog_0 : gmap string param :=
  <["biasdf" := PFrame tie_biasdf]> demo_exog_0.

Definition tie_seed : Z := 8.

Definition tie_init : result (Model lcg) * gmap string param :=
  init demo_state_variable demo_decision_variable demo_state_0 tie_exog_0
    default_T tie_seed.

Definition tie_model : Model lcg :=
  from_ok (mkModel 0 0 ∅ (mkLcg 0) ∅ [] [] [] 0) (fst tie_init).

(** The sum of a row of raw probabilities. *)
Definition row_sum (s : Series) : Q :=
  fold_right (fun kx acc => (snd kx + acc)%Q) 0%Q s.

(** A table whose rows sum to one half, and a table without a Down
    column. *)
Definition short_biasdf : DataFrame :=
  [ ("Up",      [("Up", 1 # 4); ("Neutral", 1 # 8); ("Down", 1 # 8)]);
    ("Neutral", [("Up", 1 # 4); ("Neutral", 1 # 8); ("Down", 1 # 8)]);
    ("Down",    [("Up", 1 # 4); ("Neutral", 1 # 8); ("Down", 1 # 8)]) ].

Definition no_down_biasdf : DataFrame :=
  [ ("Up",      [("Up", 1 # 2); ("Neutral", 1 # 2)]);
    ("Neutral", [("Up", 1 # 2); ("Neutral", 1 # 2)]) ].

Definition init_with_biasdf (df : DataFrame)
  : result (Model lcg) * gmap string param :=
  init demo_state_variable demo_decision_variable demo_state_0
    (<["biasdf" := PFrame df]> demo_exog_0) default_T default_seed.

(** ** Further notions: builders, failures, invariants *)

Section MoreNotions.

Context {G : Type} `{Generator G}.

Implicit Types (m : Model G) (d : namedtuple).

(** The first field of a schema that a dict has no entry for. *)
Definition first_missing (fields : list string) (info : gmap string value)
  : option string :=
  find (fun k => match info !! k with None => true | Some _ => false end)
    fields.

(** What the generator, the objective and the transition read succeeds:
    a table with a row per regime and the columns Up and Neutral, numeric
    drifts and scale, and a state with a resource, numeric prices and a
    regime. Nothing is asked of the state schema and of the sign of the
    scale. *)
Record readable m : Prop := {
  rd_biasdf :
    exists df,
      initial_args_exog_params m !! "biasdf" = Some (PFrame df) /\
      forall r, In r regimes ->
        exists row up neutral,
          assoc r df = Some row /\ assoc "Up" row = Some up /\
          assoc "Neutral" row = Some neutral;
  rd_up_step : exists q, num_param (initial_args_exog_params m) "UpStep" q;
  rd_down_step :
    exists q, num_param (initial_args_exog_params m) "DownStep" q;
  rd_variance : exists q, num_param (initial_args_exog_params m) "Variance" q;
  rd_resource : exists r, assoc "resource" (state m) = Some r;
  rd_price :
    exists v q, assoc "price" (state m) = Some v /\ as_num v = Some q;
  rd_price_smoothed :
    exists v q, assoc "price_smoothed" (state m) = Some v /\
                as_num v = Some q;
  rd_bias :
    exists b, assoc "bias" (state m) = Some (VStr b) /\ In b regimes
}.

(** The scale of the normal draw, where it is a number, is at least 0. *)
Definition scale_nonneg m : Prop :=
  forall q, num_param (initial_args_exog_params m) "Variance" q -> (0 <= q)%Q.

(** The regime of a state is one of the three labels. *)
Definition bias_in_regimes (s : namedtuple) : Prop :=
  exists l, assoc "bias" s = Some (VStr l) /\ In l regimes.


(** A decision whose [sell] is not equal to 1. *)
Definition is_hold (d : namedtuple) : Prop :=
  exists v, assoc "sell" d = Some v /\ py_eq v (VNum 1) = false.

(** A decision whose [sell] is equal to 1. *)
Definition is_sale (d : namedtuple) : Prop :=
  exists v, assoc "sell" d = Some v /\ py_eq v (VNum 1) = true.

(** The resource of a state is the given value. *)
Definition resource_is (r : value) (s : namedtuple) : Prop :=
  assoc "resource" s = Some r.

(** Two states show the same market: the same price, smoothed price and
    regime. *)
Definition same_market (s1 s2 : namedtuple) : Prop :=
  assoc "price" s1 = assoc "price" s2 /\
  assoc "price_smoothed" s1 = assoc "price_smoothed" s2 /\
  assoc "bias" s1 = assoc "bias" s2.

(** The model with other bookkeeping: the seed and horizon recorded in
    [initial_args], the recorded initial state and the decision schema. *)
Definition with_bookkeeping (seed T : Z) (s0 : gmap string value)
    (dv : list string) m : Model G :=
  mkModel seed T (initial_args_exog_params m) (prng m) s0
    (state_variable m) dv (state m) (objective m).

(** A method body does the same on a model and on its image under [f]. *)
Definition commutes_with {A} (f : Model G -> Model G) (c : prog G A) : Prop :=
  forall m, c (f m) = (fst (c m), f (snd (c m))).

(** The entries of a row are at least 0. *)
Definition nonneg_row (s : Series) : Prop :=
  Forall (fun kx => (0 <= snd kx)%Q) s.

(** The first field of a schema that [step] has no value for. *)
Definition first_unknown_field (fields : list string) : option string :=
  find (fun k => negb (bool_decide (k ∈ state_fields))) fields.

End MoreNotions.

(** Inputs for the failure cases. *)

Definition no_sell_decision : namedtuple := [("buy", VNum 1)].

Definition sideways_state_0 : gmap string value :=
  <["bias" := VStr "Sideways"]> demo_state_0.

Definition sideways_model : Model lcg :=
  from_ok demo_model
    (fst (init demo_state_variable demo_decision_variable sideways_state_0
            demo_exog_0 default_T default_seed)).

Definition negative_scale_model : Model lcg :=
  from_ok demo_model
    (fst (init demo_state_variable demo_decision_variable demo_state_0
            (<["Variance" := PVal (VNum (-1))]> demo_exog_0)
            default_T default_seed)).

(** A table whose Up threshold is 1 in every row. *)
Definition always_up_biasdf : DataFrame :=
  [ ("Up",      [("Up", 1 # 1); ("Neutral", 0 # 1); ("Down", 0 # 1)]);
    ("Neutral", [("Up", 1 # 1); ("Neutral", 0 # 1); ("Down", 0 # 1)]);
    ("Down",    [("Up", 1 # 1); ("Neutral", 0 # 1); ("Down", 0 # 1)]) ].

Definition always_up_model : Model lcg :=
  from_ok demo_model (fst (init_with_biasdf always_up_biasdf)).

Definition all_hold_decisions : list namedtuple :=
  [hold_now; hold_now; hold_now; hold_now; hold_now].

Definition volume_state_variable : list string :=
  ["resource"; "volume"; "price"; "price_smoothed"; "bias"].

Definition volume_model : Model lcg :=
  from_ok demo_model
    (fst (init volume_state_variable demo_decision_variable
            (<["volume" := VNum 100]> demo_state_0)
            demo_exog_0 default_T default_seed)).

(** ** The dict shared with the caller, and the range of the inputs *)

Section Sharing.

Context {G : Type} `{Generator G}.

Implicit Types (m : Model G).

(** The [exog_0] dict given to the constructor stays one object: the caller
    holds it and [initial_args] of every model constructed from it refers to
    it, so that a method of such a model reads the content the object has
    when the method runs. [sharing e m] is the model [m] at a time when that
    content is [e]; right after its own construction [e] is the second
    component of [init], and no method changes it. *)
Definition sharing (e : gmap string param) m : Model G :=
  mkModel (initial_args_seed m) (initial_args_T m) e (prng m)
    (initial_state m) (state_variable m) (decision_variable m) (state m)
    (objective m).

(** A model is constructed from a dict and run; then a second model is
    constructed with the same arguments, the dict being the same object, and
    run on the same decisions. The result is, for each run, the states or the
    exception and the final objective. *)
Definition run_then_run_again (sv dv : list string) (s0 : gmap string value)
    (e0 : gmap string param) (T seed : Z) (ds : list namedtuple)
  : option ((result (list namedtuple) * Q)
            * (result (list namedtuple) * Q)) :=
  match init sv dv s0 e0 T seed with
  | (Ok m1, e1) =>
      let out1 := run ds (sharing e1 m1) in
      match init sv dv s0 e1 T seed with
      | (Ok m2, e2) =>
          let out2 := run ds (sharing e2 m2) in
          Some ((fst out1, objective (snd out1)),
                (fst out2, objective (snd out2)))
      | (Raise _, _) => None
      end
  | (Raise _, _) => None
  end.

(** Two models are constructed from the same dict object, and only then is
    each of them run: both read the content the object has after the second
    construction. *)
Definition construct_twice_then_run (sv dv : list string)
    (s0 : gmap string value) (e0 : gmap string param) (T seed : Z)
    (ds : list namedtuple)
  : option (result (list namedtuple) * result (list namedtuple)) :=
  match init sv dv s0 e0 T seed with
  | (Ok m1, e1) =>
      match init sv dv s0 e1 T seed with
      | (Ok m2, e2) =>
          Some (fst (run ds (sharing e2 m1)), fst (run ds (sharing e2 m2)))
      | (Raise _, _) => None
      end
  | (Raise _, _) => None
  end.

(** Two models agree on all that a step reads and writes: the exogenous
    parameters, the random source, the state schema, the state and the
    objective. The seed and horizon recorded in [initial_args], the recorded
    initial state and the decision schema may differ. *)
Definition same_reads m1 m2 : Prop :=
  initial_args_exog_params m1 = initial_args_exog_params m2 /\
  prng m1 = prng m2 /\
  state_variable m1 = state_variable m2 /\
  state m1 = state m2 /\
  objective m1 = objective m2.

End Sharing.

(** A name all of whose characters are ASCII. On such names [isidentifier]
    above is the [str.isidentifier] of the language, which accepts further
    letters and digits outside ASCII. *)
Definition ascii_name (s : string) : bool :=
  all_chars (fun c => (nat_of_ascii c <? 128)%nat) s.

(** The largest finite float, [(2 - 2 ** -52) * 2 ** 1023]: an int of larger
    magnitude has no float, and float arithmetic on it raises
    [OverflowError], which the exact numbers above do not show. *)
Definition float_max : Q := inject_Z (2 ^ 1024 - 2 ^ 971).

Definition in_float_range (v : value) : Prop :=
  forall q, as_num v = Some q -> (- float_max <= q /\ q <= float_max)%Q.

(** The labels of the rows of a table are distinct, and so are the labels of
    its columns. With a repeated row label [df.T[b]] is a frame and not a
    row, and with a repeated column label [biasprob[k]] is a row and not a
    number; [frame_T_getitem] and [series_getitem] above read the first
    entry of a label. *)
Definition distinct_labels (df : DataFrame) : Prop :=
  NoDup (map fst df) /\ Forall (fun row => NoDup (map fst (snd row))) df.

(** Valid arguments within the part of the inputs on which the numbers and
    tables above are those of the program: a table with distinct labels, and
    drifts, scale and initial prices within the range of the floats. *)
Record sound_arguments (sv dv : list string) (s0 : gmap string value)
    (e0 : gmap string param) (seed : Z) : Prop := {
  sa_valid : valid_arguments sv dv s0 e0 seed;
  sa_labels :
    forall df, e0 !! "biasdf" = Some (PFrame df) -> distinct_labels df;
  sa_params :
    forall k v, In k ["UpStep"; "DownStep"; "Variance"] ->
      e0 !! k = Some (PVal v) -> in_float_range v;
  sa_prices :
    forall k v, In k ["price"; "price_smoothed"] ->
      s0 !! k = Some v -> in_float_range v
}.

(** An initial state whose price is negative. *)
Definition negative_price_state_0 : gmap string value :=
  <["price" := VNum (-5)]> demo_state_0.

Definition negative_price_init : result (Model lcg) * gmap string param :=
  init demo_state_variable demo_decision_variable negative_price_state_0
    demo_exog_0 default_T default_seed.

Definition negative_price_model : Model lcg :=
  from_ok demo_model (fst negative_price_init).


(** ** Reasoning about method bodies *)

Section Properties.

Context {G : Type} `{Generator G}.

Implicit Types (m : Model G) (d : namedtuple).

Lemma bind_ok {A B} (c : prog G A) (k : A -> prog G B) m b m' :
  bind c k m = (Ok b, m') ->
  exists a m1, c m = (Ok a, m1) /\ k a m1 = (Ok b, m').
Proof.
  unfold bind. destruct (c m) as [[a|e] m1]; intros Hk.
  - exists a, m1. split; [reflexivity | exact Hk].
  - discriminate.
Qed.

Lemma bind_step {A B} (c : prog G A) (k : A -> prog G B) m a m1 :
  c m = (Ok a, m1) -> bind c k m = k a m1.
Proof. unfold bind. intros ->. reflexivity. Qed.

Lemma lift_ok {A} (r : result A) m a m' :
  lift r m = (Ok a, m') -> r = Ok a /\ m' = m.
Proof. unfold lift. intros [= -> ->]. split; reflexivity. Qed.

Lemma gets_ok {A} (f : Model G -> A) m a m' :
  gets f m = (Ok a, m') -> a = f m /\ m' = m.
Proof. unfold gets. intros [= <- <-]. split; reflexivity. Qed.

Lemma result_bind_ok {A B} (r : result A) (k : A -> result B) b :
  result_bind r k = Ok b -> exists a, r = Ok a /\ k a = Ok b.
Proof.
  destruct r as [a|e]; simpl; intros Hk; [|discriminate].
  exists a. split; [reflexivity | exact Hk].
Qed.

(** *** Frames: what a method body leaves unchanged *)

Section Frame.

Variable R : Model G -> Model G -> Prop.
Hypothesis R_refl : forall m, R m m.
Hypothesis R_trans : forall m1 m2 m3, R m1 m2 -> R m2 m3 -> R m1 m3.

Lemma preserves_ret {A} (a : A) : preserves R (ret a).
Proof. intros m. apply R_refl. Qed.

Lemma preserves_lift {A} (r : result A) : preserves R (lift r).
Proof. intros m. apply R_refl. Qed.

Lemma preserves_gets {A} (f : Model G -> A) : preserves R (gets f).
Proof. intros m. apply R_refl. Qed.

Lemma preserves_bind {A B} (c : prog G A) (k : A -> prog G B) :
  preserves R c -> (forall a, preserves R (k a)) -> preserves R (bind c k).
Proof.
  intros Hc Hk m. unfold bind.
  specialize (Hc m). destruct (c m) as [[a|e] m1]; simpl in *.
  - eapply R_trans; [exact Hc | apply Hk].
  - exact Hc.
Qed.

Lemma preserves_if {A} (b : bool) (c1 c2 : prog G A) :
  preserves R c1 -> preserves R c2 -> preserves R (if b then c1 else c2).
Proof. destruct b; auto. Qed.

End Frame.

Lemma same_config_refl m : same_config m m.
Proof. repeat split. Qed.

Lemma same_config_trans m1 m2 m3 :
  same_config m1 m2 -> same_config m2 m3 -> same_config m1 m3.
Proof.
  unfold same_config. intros (?&?&?&?&?&?) (?&?&?&?&?&?).
  repeat split; congruence.
Qed.

Lemma only_prng_changed_refl m : only_prng_changed m m.
Proof. repeat split. Qed.

Lemma only_prng_changed_trans m1 m2 m3 :
  only_prng_changed m1 m2 -> only_prng_changed m2 m3 ->
  only_prng_changed m1 m3.
Proof.
  unfold only_prng_changed. intros (?&?&?) (?&?&?).
  split; [eapply same_config_trans; eassumption | split; congruence].
Qed.

Lemma only_prng_changed_config m m' :
  only_prng_changed m m' -> same_config m m'.
Proof. intros [Hc _]. exact Hc. Qed.

Lemma prng_uniform_frame : preserves only_prng_changed prng_uniform.
Proof. intros m. repeat split. Qed.

Lemma prng_normal_frame loc scale :
  preserves only_prng_changed (prng_normal loc scale).
Proof.
  intros m. unfold prng_normal.
  destruct (param_value loc); [|apply only_prng_changed_refl].
  destruct (param_value scale); [|apply only_prng_changed_refl].
  repeat split.
Qed.

Lemma exog_info_fn_frame : preserves only_prng_changed exog_info_fn.
Proof.
  unfold exog_info_fn.
  repeat (apply preserves_bind;
          [ exact only_prng_changed_trans
          | first [ apply prng_uniform_frame | apply prng_normal_frame
                  | apply preserves_gets | apply preserves_lift ];
            exact only_prng_changed_refl
          | intros ? ]).
  apply preserves_ret. exact only_prng_changed_refl.
Qed.

Lemma preserves_weaken {A} (R R' : Model G -> Model G -> Prop)
    (c : prog G A) :
  (forall m m', R m m' -> R' m m') -> preserves R c -> preserves R' c.
Proof. intros Himp Hc m. apply Himp, Hc. Qed.

Ltac frame_with Hrefl Htrans :=
  repeat first
    [ apply preserves_ret; exact Hrefl
    | apply preserves_lift; exact Hrefl
    | apply preserves_gets; exact Hrefl
    | apply preserves_if; [exact Hrefl | exact Htrans | | ]
    | apply preserves_bind; [exact Htrans | | intros ?] ].

Lemma transition_fn_frame d info : preserves (G := G) eq (transition_fn d info).
Proof.
  unfold transition_fn.
  frame_with (@eq_refl (Model G)) (@eq_trans (Model G));
    destruct (py_eq _ _);
    frame_with (@eq_refl (Model G)) (@eq_trans (Model G)).
Qed.

Lemma objective_fn_frame d info : preserves (G := G) eq (objective_fn d info).
Proof.
  unfold objective_fn.
  frame_with (@eq_refl (Model G)) (@eq_trans (Model G));
    destruct (py_eq _ _);
    frame_with (@eq_refl (Model G)) (@eq_trans (Model G)).
Qed.

Lemma build_state_frame info : preserves (G := G) eq (build_state info).
Proof.
  unfold build_state.
  frame_with (@eq_refl (Model G)) (@eq_trans (Model G)).
Qed.

Lemma eq_same_config m m' : m = m' -> same_config m m'.
Proof. intros <-. apply same_config_refl. Qed.

Lemma step_frame d : preserves same_config (step d).
Proof.
  unfold step.
  apply preserves_bind; [exact same_config_trans | | intros exog_info].
  { eapply preserves_weaken; [exact only_prng_changed_config|].
    apply exog_info_fn_frame. }
  apply preserves_bind; [exact same_config_trans | | intros obj].
  { apply preserves_gets. exact same_config_refl. }
  apply preserves_bind; [exact same_config_trans | | intros obj_part].
  { eapply preserves_weaken; [exact eq_same_config|].
    apply objective_fn_frame. }
  apply preserves_bind; [exact same_config_trans | | intros part].
  { apply preserves_lift. exact same_config_refl. }
  apply preserves_bind; [exact same_config_trans | | intros _].
  { intros m. repeat split. }
  apply preserves_bind; [exact same_config_trans | | intros upd].
  { eapply preserves_weaken; [exact eq_same_config|].
    apply transition_fn_frame. }
  apply preserves_bind; [exact same_config_trans | | intros s].
  { eapply preserves_weaken; [exact eq_same_config|].
    apply build_state_frame. }
  apply preserves_bind; [exact same_config_trans | | intros _].
  { intros m. repeat split. }
  apply preserves_gets. exact same_config_refl.
Qed.

Lemma run_frame ds : preserves same_config (run ds).
Proof.
  induction ds as [|d ds IH]; simpl.
  - apply preserves_ret. exact same_config_refl.
  - apply preserves_bind; [exact same_config_trans | apply step_frame |].
    intros s.
    apply preserves_bind; [exact same_config_trans | exact IH |].
    intros ss. apply preserves_ret. exact same_config_refl.
Qed.

(** *** Successful calls, taken apart *)

Lemma ret_ok {A} (a : A) m b m' :
  ret (G:=G) a m = (Ok b, m') -> b = a /\ m' = m.
Proof. unfold ret. intros [= <- <-]. split; reflexivity. Qed.

Lemma modify_ok (f : Model G -> Model G) m u m' :
  modify f m = (Ok u, m') -> m' = f m.
Proof. unfold modify. intros Heq. congruence. Qed.

Lemma prng_uniform_ok m coin m' :
  prng_uniform m = (Ok coin, m') ->
  coin = fst (uniform (prng m)) /\ m' = with_prng (snd (uniform (prng m))) m.
Proof. unfold prng_uniform. intros [= <- <-]. split; reflexivity. Qed.

Ltac prog_inv :=
  repeat match goal with
  | Hb : bind _ _ _ = (Ok _, _) |- _ =>
      apply bind_ok in Hb; destruct Hb as (? & ? & ? & ?)
  | Hb : lift _ _ = (Ok _, _) |- _ =>
      apply lift_ok in Hb; destruct Hb as [? ?]
  | Hb : gets _ _ = (Ok _, _) |- _ =>
      apply gets_ok in Hb; destruct Hb as [? ?]
  | Hb : ret _ _ = (Ok _, _) |- _ =>
      apply ret_ok in Hb; destruct Hb as [? ?]
  | Hb : modify _ _ = (Ok _, _) |- _ => apply modify_ok in Hb
  | Hb : prng_uniform _ = (Ok _, _) |- _ =>
      apply prng_uniform_ok in Hb; destruct Hb as [? ?]
  | Hb : result_bind _ _ = Ok _ |- _ =>
      apply result_bind_ok in Hb; destruct Hb as (? & ? & ?)
  end.

Lemma to_float_ok v q : to_float v = Ok q -> as_num v = Some q.
Proof. unfold to_float. destruct (as_num v); congruence. Qed.

Lemma getitem_ok {V} (dict : gmap string V) k v :
  getitem dict k = Ok v -> dict !! k = Some v.
Proof. unfold getitem. destruct (dict !! k); congruence. Qed.

Lemma getattr_ok (t : namedtuple) a v :
  getattr t a = Ok v -> assoc a t = Some v.
Proof. unfold getattr. destruct (assoc a t); congruence. Qed.

Lemma series_getitem_ok (s : Series) k x :
  series_getitem s k = Ok x -> assoc k s = Some x.
Proof. unfold series_getitem. destruct (assoc k s); congruence. Qed.

(** A successful [normal(loc, scale)] is one standard normal draw, scaled
    and shifted. *)
Lemma prng_normal_ok loc scale m x m' :
  prng_normal loc scale m = (Ok x, m') ->
  exists lv sv l s,
    loc = PVal lv /\ scale = PVal sv /\
    as_num lv = Some l /\ as_num sv = Some s /\ Qltb s 0 = false /\
    x = (l + s * fst (standard_normal (prng m)))%Q /\
    m' = with_prng (snd (standard_normal (prng m))) m.
Proof.
  unfold prng_normal, normal, to_float.
  destruct loc as [lv|]; simpl; [|discriminate].
  destruct scale as [sv|]; simpl; [|discriminate].
  destruct (as_num lv) as [l|] eqn:Hl; simpl; [|discriminate].
  destruct (as_num sv) as [s|] eqn:Hs; simpl; [|discriminate].
  destruct (Qltb s 0) eqn:Hneg; simpl; [discriminate|].
  intros [= <- <-]. exists lv, sv, l, s. repeat split; assumption.
Qed.

Lemma exog_info_fn_ok m info m' :
  exog_info_fn m = (Ok info, m') ->
  exists df b biasprob nb variance price_delta pv p,
    initial_args_exog_params m !! "biasdf" = Some (PFrame df) /\
    assoc "bias" (state m) = Some b /\
    frame_T_getitem df b = Ok biasprob /\
    choose_bias (initial_args_exog_params m) biasprob
      (fst (uniform (prng m))) = Ok nb /\
    initial_args_exog_params m !! "Variance" = Some variance /\
    prng_normal (snd nb) variance (with_prng (snd (uniform (prng m))) m)
      = (Ok price_delta, m') /\
    assoc "price" (state m) = Some pv /\
    as_num pv = Some p /\
    info = <["price" := VNum (clamp (p + price_delta))]>
             (<["bias" := VStr (fst nb)]> ∅).
Proof.
  unfold exog_info_fn. intros Hrun. prog_inv. subst.
  match goal with
  | Hn : prng_normal _ _ _ = (Ok _, ?m1) |- _ =>
      assert (Hst : state m1 = state m)
        by (destruct (prng_normal_ok _ _ _ _ _ Hn)
              as (? & ? & ? & ? & _ & _ & _ & _ & _ & _ & ->); reflexivity)
  end.
  rewrite Hst in *.
  match goal with
  | Hp : param_T ?x = Ok _ |- _ => destruct x; simpl in Hp; [discriminate|];
      injection Hp as Hp; subst
  end.
  do 8 eexists.
  repeat split;
    eauto using getitem_ok, getattr_ok, to_float_ok.
Qed.

Lemma Qltb_lt x y : Qltb x y = true <-> (x < y)%Q.
Proof.
  unfold Qltb. rewrite Qlt_alt.
  destruct (x ?= y)%Q; split; congruence.
Qed.

Lemma Qltb_ge x y : Qltb x y = false <-> (y <= x)%Q.
Proof.
  split.
  - intros Hf. apply Qnot_lt_le. intros Hlt.
    apply Qltb_lt in Hlt. congruence.
  - intros Hle. destruct (Qltb x y) eqn:Hb; [|reflexivity].
    apply Qltb_lt in Hb. exfalso. exact (Qle_not_lt _ _ Hle Hb).
Qed.

Lemma Qgeb_negb_Qltb x y : Qgeb x y = negb (Qltb x y).
Proof. unfold Qgeb, Qltb. destruct (x ?= y)%Q; reflexivity. Qed.

(** The regime [choose_bias] selects, when it returns. *)
Lemma choose_bias_ok ep (row : Series) coin nb :
  choose_bias ep row coin = Ok nb ->
  exists up,
    assoc "Up" row = Some up /\
    ((Qltb coin up = true /\ fst nb = "Up" /\ ep !! "UpStep" = Some (snd nb))
     \/ (Qltb coin up = false /\
         exists neutral,
           assoc "Neutral" row = Some neutral /\
           ((Qltb coin neutral = true /\ nb = ("Neutral", PVal (VNum 0)))
            \/ (Qltb coin neutral = false /\ fst nb = "Down" /\
                ep !! "DownStep" = Some (snd nb))))).
Proof.
  unfold choose_bias. intros Hc.
  apply result_bind_ok in Hc. destruct Hc as (up & Hup & Hc).
  exists up. split; [exact (series_getitem_ok _ _ _ Hup)|].
  destruct (Qltb coin up) eqn:Hlt.
  - left. apply result_bind_ok in Hc. destruct Hc as (bias & Hb & [= <-]).
    repeat split. exact (getitem_ok _ _ _ Hb).
  - right. split; [reflexivity|].
    rewrite Hup in Hc. simpl in Hc.
    rewrite Qgeb_negb_Qltb, Hlt in Hc. simpl in Hc.
    apply result_bind_ok in Hc. destruct Hc as (inn & Hn & Hc).
    apply result_bind_ok in Hn. destruct Hn as (neutral & Hn & [= <-]).
    exists neutral. split; [exact (series_getitem_ok _ _ _ Hn)|].
    destruct (Qltb coin neutral) eqn:Hlt2.
    + left. injection Hc as <-. split; reflexivity.
    + right. apply result_bind_ok in Hc. destruct Hc as (bias & Hb & [= <-]).
      repeat split. exact (getitem_ok _ _ _ Hb).
Qed.

Lemma py_mul_int_float pv p n v q :
  as_num pv = Some p -> py_mul_int pv n = Ok v -> to_float v = Ok q ->
  q = (p * inject_Z n)%Q.
Proof.
  destruct pv as [x|b|s|]; simpl; try discriminate.
  - intros [= <-] [= <-]. unfold to_float; simpl. congruence.
  - intros [= <-] [= <-]. unfold to_float; simpl. congruence.
Qed.

Lemma objective_fn_ok d info m v m' :
  objective_fn d info m = (Ok v, m') ->
  m' = m /\
  exists sellv pv,
    assoc "sell" d = Some sellv /\
    assoc "price" (state m) = Some pv /\
    ((py_eq sellv (VNum 1) = true /\
      exists r, assoc "resource" (state m) = Some r /\
                py_mul_int pv (sell_size sellv r) = Ok v)
     \/ (py_eq sellv (VNum 1) = false /\ py_mul_int pv 0 = Ok v)).
Proof.
  intros Hrun. split.
  { pose proof (objective_fn_frame d info m) as Hf.
    rewrite Hrun in Hf. symmetry. exact Hf. }
  unfold objective_fn in Hrun. prog_inv. subst.
  match goal with
  | Hs : getattr d "sell" = Ok ?s |- _ =>
      exists s; apply getattr_ok in Hs; destruct (py_eq s (VNum 1)) eqn:Hsell
  end; prog_inv; subst;
    repeat match goal with
           | Hg : getattr _ _ = Ok _ |- _ => apply getattr_ok in Hg
           end.
  - eexists. split; [eassumption|]. split; [eassumption|].
    left. split; [reflexivity|]. eexists. split; [eassumption|].
    unfold sell_size. rewrite Hsell. simpl. assumption.
  - eexists. split; [eassumption|]. split; [eassumption|].
    right. split; [reflexivity | assumption].
Qed.

Lemma transition_fn_ok d info m upd m' :
  transition_fn d info m = (Ok upd, m') ->
  m' = m /\
  exists sellv new_resource psv ps npv np,
    assoc "sell" d = Some sellv /\
    (if py_eq sellv (VNum 1) then new_resource = VNum 0
     else assoc "resource" (state m) = Some new_resource) /\
    assoc "price_smoothed" (state m) = Some psv /\ as_num psv = Some ps /\
    info !! "price" = Some npv /\ as_num npv = Some np /\
    upd = <["resource" := new_resource]>
            (<["price_smoothed" := VNum ((1 - alpha) * ps + alpha * np)]> ∅).
Proof.
  intros Hrun. split.
  { pose proof (transition_fn_frame d info m) as Hf.
    rewrite Hrun in Hf. symmetry. exact Hf. }
  unfold transition_fn in Hrun. prog_inv. subst.
  match goal with
  | Hs : getattr d "sell" = Ok ?s |- _ =>
      exists s; apply getattr_ok in Hs; destruct (py_eq s (VNum 1)) eqn:Hsell
  end; prog_inv; subst;
    repeat match goal with
           | Hg : getattr _ _ = Ok _ |- _ => apply getattr_ok in Hg
           | Hg : getitem _ _ = Ok _ |- _ => apply getitem_ok in Hg
           | Hg : to_float _ = Ok _ |- _ => apply to_float_ok in Hg
           end.
  - do 5 eexists. repeat apply conj; try eassumption; reflexivity.
  - do 5 eexists. repeat apply conj; try eassumption; reflexivity.
Qed.

Lemma sell_size_hold sellv resource :
  py_eq sellv (VNum 1) = false -> sell_size sellv resource = 0%Z.
Proof. unfold sell_size. intros ->. reflexivity. Qed.

(** A successful [step], taken apart into what each of its calls did. *)
Lemma step_ok d m s' m' :
  step d m = (Ok s', m') ->
  exists info m1 sellv resource pv p psv ps newp,
    exog_info_fn m = (Ok info, m1) /\
    assoc "sell" d = Some sellv /\
    assoc "resource" (state m) = Some resource /\
    assoc "price" (state m) = Some pv /\ as_num pv = Some p /\
    assoc "price_smoothed" (state m) = Some psv /\ as_num psv = Some ps /\
    info !! "price" = Some (VNum newp) /\
    build_tuple (state_variable m)
      (transition_update sellv resource ps newp ∪ info) = Ok s' /\
    m' = with_state s'
           (with_objective
              (objective m + p * inject_Z (sell_size sellv resource))%Q m1).
Proof.
  unfold step. intros Hrun.
  apply bind_ok in Hrun. destruct Hrun as (info & m1 & Hexog & Hrun).
  pose proof (exog_info_fn_frame m) as Hfr. rewrite Hexog in Hfr.
  destruct Hfr as ((_ & _ & _ & _ & Hsv & _) & Hst & Hobj). simpl in *.
  destruct (exog_info_fn_ok _ _ _ Hexog)
    as (df & b & row & nb & var & delta & pv & p & _ & _ & _ & _ & _ & _
        & Hpv & Hp & Hinfo).
  apply bind_ok in Hrun. destruct Hrun as (obj & m2 & Hg & Hrun).
  apply gets_ok in Hg. destruct Hg as [-> ->].
  apply bind_ok in Hrun. destruct Hrun as (part & m2 & Hofn & Hrun).
  destruct (objective_fn_ok _ _ _ _ _ Hofn)
    as (-> & sellv & pv' & Hsell & Hpv' & Hcase).
  rewrite Hst, Hpv in Hpv'. injection Hpv' as <-.
  rewrite Hst in Hcase.
  apply bind_ok in Hrun. destruct Hrun as (q & m2 & Hq & Hrun).
  apply lift_ok in Hq. destruct Hq as [Hq ->].
  apply bind_ok in Hrun. destruct Hrun as (u & m2 & Hmod & Hrun).
  apply modify_ok in Hmod. subst m2.
  apply bind_ok in Hrun. destruct Hrun as (upd & m2 & Htr & Hrun).
  destruct (transition_fn_ok _ _ _ _ _ Htr)
    as (-> & sellv' & newres & psv & ps & npv & np & Hsell' & Hres & Hps
        & Hpsn & Hnp & Hnpn & ->).
  rewrite Hsell in Hsell'. injection Hsell' as <-.
  simpl in Hres, Hps. rewrite Hst in Hres, Hps.
  apply bind_ok in Hrun. destruct Hrun as (s & m2 & Hbs & Hrun).
  unfold build_state in Hbs.
  apply bind_ok in Hbs. destruct Hbs as (fields & m3 & Hg & Hbs).
  apply gets_ok in Hg. destruct Hg as [-> ->].
  apply lift_ok in Hbs. destruct Hbs as [Hbs ->]. simpl in Hbs.
  apply bind_ok in Hrun. destruct Hrun as (u' & m2 & Hmod & Hrun).
  apply modify_ok in Hmod. subst m2.
  apply gets_ok in Hrun. destruct Hrun as [-> ->]. simpl.
  assert (Hnew : npv = VNum np).
  { rewrite Hinfo in Hnp. rewrite lookup_insert_eq in Hnp.
    injection Hnp as <-. simpl in Hnpn. congruence. }
  subst npv.
  assert (Hresource : exists resource,
             assoc "resource" (state m) = Some resource /\
             newres = (if py_eq sellv (VNum 1) then VNum 0 else resource) /\
             q = (p * inject_Z (sell_size sellv resource))%Q).
  { destruct Hcase as [(Hs1 & r & Hr & Hmul) | (Hs0 & Hmul)].
    - rewrite Hs1 in Hres. exists r.
      split; [exact Hr|]. rewrite Hs1. split; [exact Hres|].
      eapply py_mul_int_float; eassumption.
    - rewrite Hs0 in Hres. exists newres.
      split; [exact Hres|]. rewrite Hs0. split; [reflexivity|].
      rewrite (sell_size_hold _ _ Hs0).
      eapply py_mul_int_float; eassumption. }
  destruct Hresource as (resource & Hr & -> & ->).
  exists info, m1, sellv, resource, pv, p, psv, ps, np.
  rewrite Hsv in Hbs. rewrite Hobj.
  repeat apply conj; try assumption; reflexivity.
Qed.

(** *** Well-formed models: [step] succeeds on them *)

Lemma assoc_in_fst {V} k (l : list (string * V)) v :
  assoc k l = Some v -> In k (map fst l).
Proof.
  induction l as [|[k' v'] l IH]; simpl; [discriminate|].
  case_bool_decide; [intros _; left; assumption | intros Ha; right; auto].
Qed.

Lemma build_tuple_fields fields info t :
  build_tuple fields info = Ok t -> map fst t = fields.
Proof.
  revert t. induction fields as [|k r IH]; simpl; intros t Hb.
  - injection Hb as <-. reflexivity.
  - apply result_bind_ok in Hb. destruct Hb as (v & _ & Hb).
    apply result_bind_ok in Hb. destruct Hb as (t' & Ht' & [= <-]).
    simpl. rewrite (IH _ Ht'). reflexivity.
Qed.

Lemma build_tuple_assoc fields info t k :
  build_tuple fields info = Ok t -> In k fields -> assoc k t = info !! k.
Proof.
  revert t. induction fields as [|k' r IH]; simpl; intros t Hb Hin.
  - contradiction.
  - apply result_bind_ok in Hb. destruct Hb as (v & Hv & Hb).
    apply result_bind_ok in Hb. destruct Hb as (t' & Ht' & [= <-]).
    simpl. case_bool_decide as Hk.
    + subst k'. symmetry. exact (getitem_ok _ _ _ Hv).
    + destruct Hin as [Heq|Hin]; [contradiction|]. apply IH; assumption.
Qed.

Lemma build_tuple_succeeds fields (info : gmap string value) :
  Forall (fun k => is_Some (info !! k)) fields ->
  exists t, build_tuple fields info = Ok t.
Proof.
  induction 1 as [|k r [v Hv] _ [t Ht]]; simpl.
  - exists []. reflexivity.
  - exists ((k, v) :: t). unfold getitem. rewrite Hv. simpl.
    rewrite Ht. reflexivity.
Qed.

Lemma choose_bias_succeeds ep (row : Series) coin up neutral qu qd :
  assoc "Up" row = Some up -> assoc "Neutral" row = Some neutral ->
  num_param ep "UpStep" qu -> num_param ep "DownStep" qd ->
  exists label v q,
    choose_bias ep row coin = Ok (label, PVal v) /\
    as_num v = Some q /\ In label regimes.
Proof.
  intros Hup Hne (vu & Hvu & Hqu) (vd & Hvd & Hqd).
  unfold choose_bias, series_getitem, getitem.
  rewrite Hup. simpl.
  rewrite Qgeb_negb_Qltb.
  destruct (Qltb coin up); simpl.
  - rewrite Hvu. simpl. exists "Up", vu, qu.
    repeat split; [assumption | simpl; tauto].
  - rewrite Hne. simpl. destruct (Qltb coin neutral).
    + exists "Neutral", (VNum 0), 0%Q. repeat split. simpl; tauto.
    + rewrite Hvd. simpl. exists "Down", vd, qd.
      repeat split; [assumption | simpl; tauto].
Qed.

Lemma exog_info_fn_succeeds m :
  well_formed m ->
  exists label newp m1,
    exog_info_fn m
      = (Ok (<["price" := VNum newp]> (<["bias" := VStr label]> ∅)), m1) /\
    In label regimes.
Proof.
  intros [(df & Hdf & Hrows) (qu & Hqu) (qd & Hqd)
          (qv & (vv & Hvv & Hqv) & Hpos) _ _ _ (pv & p & Hpv & Hp) _
          (b & Hb & Hreg)].
  destruct (Hrows b Hreg) as (row & up & neutral & Hrow & Hup & Hne).
  destruct (choose_bias_succeeds (initial_args_exog_params m) row
              (fst (uniform (prng m))) up neutral qu qd Hup Hne Hqu Hqd)
    as (label & v & q & Hch & Hq & Hlab).
  exists label.
  unfold exog_info_fn, bind, gets, lift, getitem, getattr, prng_uniform,
    prng_normal, normal, to_float, ret.
  rewrite Hdf. cbn [result_bind param_T]. rewrite Hb.
  cbn [frame_T_getitem]. rewrite Hrow. cbn [fst snd prng with_prng
    initial_args_exog_params state].
  rewrite Hch, Hvv. cbn [snd fst param_value]. rewrite Hq, Hqv.
  assert (Hn : Qltb qv 0 = false) by (apply Qltb_ge; exact Hpos).
  rewrite Hn. cbn [fst snd state with_prng]. rewrite Hpv, Hp.
  eexists _, _. split; [reflexivity | exact Hlab].
Qed.

Lemma next_info_lookup r s p b :
  next_info r s p b !! "resource" = Some r /\
  next_info r s p b !! "price_smoothed" = Some (VNum s) /\
  next_info r s p b !! "price" = Some (VNum p) /\
  next_info r s p b !! "bias" = Some (VStr b).
Proof.
  repeat apply conj; vm_compute; reflexivity.
Qed.

Lemma next_info_keys r s p b k :
  In k state_fields -> is_Some (next_info r s p b !! k).
Proof.
  destruct (next_info_lookup r s p b) as (Hr & Hs & Hp & Hb).
  simpl. intros [<-|[<-|[<-|[<-|[]]]]]; eauto.
Qed.

Lemma py_mul_int_num pv p n :
  as_num pv = Some p ->
  exists v, py_mul_int pv n = Ok v /\ to_float v = Ok (p * inject_Z n)%Q.
Proof.
  destruct pv as [x|b|s|]; simpl; try discriminate; intros [= <-];
    eexists; split; reflexivity.
Qed.

Lemma objective_fn_succeeds d info m sellv resource pv p :
  assoc "sell" d = Some sellv ->
  assoc "resource" (state m) = Some resource ->
  assoc "price" (state m) = Some pv -> as_num pv = Some p ->
  exists v,
    objective_fn d info m = (Ok v, m) /\
    to_float v = Ok (p * inject_Z (sell_size sellv resource))%Q.
Proof.
  intros Hsell Hres Hpv Hp.
  destruct (py_mul_int_num pv p (sell_size sellv resource) Hp)
    as (v & Hmul & Hfl).
  exists v. split; [|exact Hfl].
  unfold objective_fn, bind, lift, gets, getattr, ret.
  rewrite Hsell. unfold sell_size in Hmul.
  destruct (py_eq sellv (VNum 1)); simpl in Hmul |- *.
  - rewrite Hres, Hpv. rewrite Hmul. reflexivity.
  - rewrite Hpv, Hmul. reflexivity.
Qed.

Lemma transition_fn_succeeds d info m sellv resource psv ps npv np :
  assoc "sell" d = Some sellv ->
  (py_eq sellv (VNum 1) = false ->
   assoc "resource" (state m) = Some resource) ->
  assoc "price_smoothed" (state m) = Some psv -> as_num psv = Some ps ->
  info !! "price" = Some npv -> as_num npv = Some np ->
  transition_fn d info m = (Ok (transition_update sellv resource ps np), m).
Proof.
  intros Hsell Hres Hpsv Hps Hnpv Hnp.
  unfold transition_fn, transition_update, bind, lift, gets, getattr,
    getitem, to_float, ret.
  rewrite Hsell.
  destruct (py_eq sellv (VNum 1)); simpl.
  - rewrite Hpsv, Hps, Hnpv, Hnp. reflexivity.
  - rewrite (Hres eq_refl), Hpsv, Hps, Hnpv, Hnp. reflexivity.
Qed.

(** On a well-formed model every decision with a [sell] field is accepted:
    [step] returns a state, and the model stays well-formed. *)
Lemma step_succeeds m d sellv :
  well_formed m -> assoc "sell" d = Some sellv ->
  exists s' m', step d m = (Ok s', m') /\ well_formed m'.
Proof.
  intros Hwf Hsell.
  destruct (exog_info_fn_succeeds m Hwf) as (label & newp & m1 & Hexog & Hlab).
  pose proof (exog_info_fn_frame m) as Hfr. rewrite Hexog in Hfr.
  destruct Hfr as ((Hseed & HT & Hep & His & Hsv & Hdv) & Hst & Hobj).
  simpl in *.
  destruct Hwf as [Hdf Hup Hdown Hvar Hschema Hfields (resource & Hres)
                   (pv & p & Hpv & Hp) (psv & ps & Hpsv & Hps) Hbias].
  assert (Hres1 := Hres). assert (Hpv1 := Hpv). assert (Hpsv1 := Hpsv).
  rewrite <- Hst in Hres1, Hpv1, Hpsv1.
  destruct (objective_fn_succeeds d
              (<["price" := VNum newp]> (<["bias" := VStr label]> ∅))
              m1 sellv resource pv p Hsell Hres1 Hpv1 Hp) as (v & Hofn & Hv).
  set (info := <["price" := VNum newp]> (<["bias" := VStr label]> ∅)) in *.
  set (m2 := with_objective
               (objective m1 + p * inject_Z (sell_size sellv resource))%Q m1).
  assert (Htr : transition_fn d info m2
                = (Ok (transition_update sellv resource ps newp), m2)).
  { apply transition_fn_succeeds with (psv := psv) (npv := VNum newp);
      try assumption; try reflexivity. intros _. exact Hres1. }
  destruct (build_tuple_succeeds (state_variable m)
              (transition_update sellv resource ps newp ∪ info))
    as (s' & Hs').
  { eapply Forall_impl; [exact Hschema|].
    intros k Hk. apply (next_info_keys _ _ _ _ _ Hk). }
  exists s', (with_state s' m2). split.
  - unfold step.
    rewrite (bind_step _ _ _ _ _ Hexog).
    unfold bind at 1. unfold gets at 1.
    rewrite (bind_step _ _ _ _ _ Hofn).
    unfold bind at 1. unfold lift at 1. rewrite Hv.
    unfold bind at 1. unfold modify at 1. fold m2.
    rewrite (bind_step _ _ _ _ _ Htr).
    unfold build_state, bind, gets, lift, modify. simpl.
    rewrite Hsv, Hs'. reflexivity.
  - destruct (next_info_lookup
                (if py_eq sellv (VNum 1) then VNum 0 else resource)
                ((1 - alpha) * ps + alpha * newp) newp label)
      as (Lr & Ls & Lp & Lb).
    assert (Hin : forall k v, assoc k (state m) = Some v ->
                              In k (state_variable m)).
    { intros k v0 Hk. rewrite <- Hfields. eapply assoc_in_fst; eassumption. }
    constructor; simpl; rewrite ?Hep, ?Hsv; try assumption.
    + exact (build_tuple_fields _ _ _ Hs').
    + eexists. rewrite (build_tuple_assoc _ _ _ "resource" Hs' (Hin _ _ Hres)).
      exact Lr.
    + exists (VNum newp), newp.
      rewrite (build_tuple_assoc _ _ _ "price" Hs' (Hin _ _ Hpv)).
      split; [exact Lp | reflexivity].
    + eexists _, _.
      rewrite (build_tuple_assoc _ _ _ "price_smoothed" Hs' (Hin _ _ Hpsv)).
      split; [exact Ls | reflexivity].
    + destruct Hbias as (b & Hb & _). exists label.
      rewrite (build_tuple_assoc _ _ _ "bias" Hs' (Hin _ _ Hb)).
      split; [exact Lb | exact Hlab].
Qed.

Lemma clamp_nonneg x : (0 <= clamp x)%Q.
Proof.
  unfold clamp. destruct (Qltb x 0) eqn:Hx.
  - apply Qle_refl.
  - apply Qltb_ge. exact Hx.
Qed.

(** The model after a successful [step], field by field. *)
Lemma step_next_state d m s' m' :
  step d m = (Ok s', m') ->
  exists sellv resource pv p psv ps delta label,
    assoc "sell" d = Some sellv /\
    assoc "resource" (state m) = Some resource /\
    assoc "price" (state m) = Some pv /\ as_num pv = Some p /\
    assoc "price_smoothed" (state m) = Some psv /\ as_num psv = Some ps /\
    build_tuple (state_variable m)
      (next_info (if py_eq sellv (VNum 1) then VNum 0 else resource)
         ((1 - alpha) * ps + alpha * clamp (p + delta))
         (clamp (p + delta)) label) = Ok s' /\
    state m' = s' /\
    objective m'
      = (objective m + p * inject_Z (sell_size sellv resource))%Q /\
    prng m' = snd (standard_normal (snd (uniform (prng m)))) /\
    same_config m m'.
Proof.
  intros Hrun.
  pose proof (step_frame d m) as Hcfg. rewrite Hrun in Hcfg. simpl in Hcfg.
  destruct (step_ok _ _ _ _ Hrun)
    as (info & m1 & sellv & resource & pv & p & psv & ps & newp & Hexog
        & Hsell & Hres & Hpv & Hp & Hpsv & Hps & Hnewp & Hbuild & ->).
  destruct (exog_info_fn_ok _ _ _ Hexog)
    as (df & b & row & nb & var & delta & pv' & p' & _ & _ & _ & _ & _
        & Hnorm & Hpv' & Hp' & Hinfo).
  rewrite Hpv in Hpv'. injection Hpv' as <-.
  rewrite Hp in Hp'. injection Hp' as <-.
  destruct (prng_normal_ok _ _ _ _ _ Hnorm)
    as (_ & _ & _ & _ & _ & _ & _ & _ & _ & _ & Hm1).
  subst info. rewrite lookup_insert_eq in Hnewp. injection Hnewp as <-.
  exists sellv, resource, pv, p, psv, ps, delta, (fst nb).
  subst m1.
  repeat apply conj; try assumption; reflexivity.
Qed.

Lemma step_conforms d m s' m' :
  step d m = (Ok s', m') -> conforms m'.
Proof.
  intros Hrun.
  destruct (step_next_state _ _ _ _ Hrun)
    as (sellv & resource & pv & p & psv & ps & delta & label & _ & _ & _ & _
        & _ & _ & Hbuild & Hst & _ & _ & (_ & _ & _ & _ & Hsv & _)).
  unfold conforms. rewrite Hst, Hsv.
  exact (build_tuple_fields _ _ _ Hbuild).
Qed.

(** The fields of the state returned by a successful [step] on a model
    whose state is an instance of its [State] class. *)
Lemma step_fields d m s' m' :
  conforms m -> step d m = (Ok s', m') ->
  exists sellv resource pv p psv ps delta label,
    assoc "sell" d = Some sellv /\
    assoc "resource" (state m) = Some resource /\
    assoc "price" (state m) = Some pv /\ as_num pv = Some p /\
    assoc "price_smoothed" (state m) = Some psv /\ as_num psv = Some ps /\
    assoc "resource" s'
      = Some (if py_eq sellv (VNum 1) then VNum 0 else resource) /\
    assoc "price" s' = Some (VNum (clamp (p + delta))) /\
    assoc "price_smoothed" s'
      = Some (VNum ((1 - alpha) * ps + alpha * clamp (p + delta))) /\
    (assoc "bias" (state m) <> None ->
     assoc "bias" s' = Some (VStr label)) /\
    objective m'
      = (objective m + p * inject_Z (sell_size sellv resource))%Q.
Proof.
  intros Hconf Hrun.
  destruct (step_next_state _ _ _ _ Hrun)
    as (sellv & resource & pv & p & psv & ps & delta & label & Hsell & Hres
        & Hpv & Hp & Hpsv & Hps & Hbuild & Hst & Hobj & _ & _).
  assert (Hin : forall k v, assoc k (state m) = Some v ->
                            In k (state_variable m)).
  { intros k v0 Hk. rewrite <- Hconf. eapply assoc_in_fst; eassumption. }
  destruct (next_info_lookup
              (if py_eq sellv (VNum 1) then VNum 0 else resource)
              ((1 - alpha) * ps + alpha * clamp (p + delta))
              (clamp (p + delta)) label) as (Lr & Ls & Lp & Lb).
  exists sellv, resource, pv, p, psv, ps, delta, label.
  repeat apply conj; try assumption.
  - rewrite (build_tuple_assoc _ _ _ "resource" Hbuild (Hin _ _ Hres)).
    exact Lr.
  - rewrite (build_tuple_assoc _ _ _ "price" Hbuild (Hin _ _ Hpv)).
    exact Lp.
  - rewrite (build_tuple_assoc _ _ _ "price_smoothed" Hbuild (Hin _ _ Hpsv)).
    exact Ls.
  - intros Hb. destruct (assoc "bias" (state m)) as [b|] eqn:Hbias;
      [|contradiction].
    rewrite (build_tuple_assoc _ _ _ "bias" Hbuild (Hin _ _ Hbias)).
    exact Lb.
Qed.

(** *** Trajectories *)

Lemma run_nil_ok m ss m' :
  run [] m = (Ok ss, m') -> ss = [] /\ m' = m.
Proof. simpl. intros Hr. apply ret_ok in Hr. exact Hr. Qed.

Lemma run_cons_ok d ds m ss m' :
  run (d :: ds) m = (Ok ss, m') ->
  exists s m1 ss',
    step d m = (Ok s, m1) /\ run ds m1 = (Ok ss', m') /\ ss = s :: ss'.
Proof.
  simpl. intros Hr.
  apply bind_ok in Hr. destruct Hr as (s & m1 & Hstep & Hr).
  apply bind_ok in Hr. destruct Hr as (ss' & m2 & Hrun & Hr).
  apply ret_ok in Hr. destruct Hr as [-> ->].
  exists s, m1, ss'. repeat split; assumption.
Qed.

Lemma run_succeeds ds m :
  well_formed m -> Forall has_sell ds ->
  exists ss m',
    run ds m = (Ok ss, m') /\ well_formed m' /\ length ss = length ds.
Proof.
  intros Hwf Hds. revert m Hwf.
  induction Hds as [|d ds [sellv Hsell] _ IH]; intros m Hwf.
  - exists [], m. split; [reflexivity | split; [exact Hwf | reflexivity]].
  - destruct (step_succeeds m d sellv Hwf Hsell) as (s & m1 & Hstep & Hwf1).
    destruct (IH m1 Hwf1) as (ss & m' & Hrun & Hwf' & Hlen).
    exists (s :: ss), m'. simpl.
    rewrite (bind_step _ _ _ _ _ Hstep), (bind_step _ _ _ _ _ Hrun).
    split; [reflexivity | split; [exact Hwf' | simpl; congruence]].
Qed.

(** ** The per-step reward (objective function) *)

Lemma sell_size_reward p sellv resource :
  (p * inject_Z (sell_size sellv resource) == reward p sellv resource)%Q.
Proof.
  unfold sell_size, reward.
  destruct (py_eq sellv (VNum 1) && py_ne resource (VNum 0)).
  - change (inject_Z 1) with 1%Q. ring.
  - change (inject_Z 0) with 0%Q. ring.
Qed.

Lemma step_objective_delta m d s' m' sellv resource pv p :
  step d m = (Ok s', m') ->
  assoc "sell" d = Some sellv ->
  assoc "resource" (state m) = Some resource ->
  assoc "price" (state m) = Some pv -> as_num pv = Some p ->
  (objective m' - objective m == reward p sellv resource)%Q.
Proof.
  intros Hrun Hsell Hres Hpv Hp.
  destruct (step_next_state _ _ _ _ Hrun)
    as (sellv' & resource' & pv' & p' & psv & ps & delta & label & Hsell'
        & Hres' & Hpv' & Hp' & _ & _ & _ & _ & Hobj & _).
  rewrite Hsell in Hsell'. injection Hsell' as <-.
  rewrite Hres in Hres'. injection Hres' as <-.
  rewrite Hpv in Hpv'. injection Hpv' as <-.
  rewrite Hp in Hp'. injection Hp' as <-.
  rewrite Hobj. rewrite <- sell_size_reward. ring.
Qed.

(** C1. For every call [step(decision)] on a model where [step] can run
    (a well-formed model, a decision with a [sell] field) the call returns,
    and the amount added to the running objective is the price of the state
    before the transition when [decision.sell == 1] and the resource before
    the transition is not 0, and is 0 otherwise; in particular a sale while
    the resource is 0 returns normally and adds 0. The same amount is added
    by every call that returns, well-formed model or not. *)
Theorem step_adds_reward m d sellv resource pv p :
  assoc "sell" d = Some sellv ->
  assoc "resource" (state m) = Some resource ->
  assoc "price" (state m) = Some pv -> as_num pv = Some p ->
  (forall s' m',
     step d m = (Ok s', m') ->
     (objective m' - objective m
      == (if py_eq sellv (VNum 1) && py_ne resource (VNum 0) then p else 0))%Q)
  /\ (well_formed m ->
      exists s' m',
        step d m = (Ok s', m') /\
        (objective m' - objective m
         == (if py_eq sellv (VNum 1) && py_ne resource (VNum 0)
             then p else 0))%Q /\
        (py_eq resource (VNum 0) = true ->
         (objective m' - objective m == 0)%Q)).
Proof.
  intros Hsell Hres Hpv Hp. split.
  - intros s' m' Hrun.
    exact (step_objective_delta _ _ _ _ _ _ _ _ Hrun Hsell Hres Hpv Hp).
  - intros Hwf.
    destruct (step_succeeds m d sellv Hwf Hsell) as (s' & m' & Hrun & _).
    exists s', m'. split; [exact Hrun|].
    pose proof (step_objective_delta _ _ _ _ _ _ _ _ Hrun Hsell Hres Hpv Hp)
      as Hadd.
    unfold reward in Hadd. split; [exact Hadd|].
    intros Hzero. rewrite Hadd. unfold py_ne. rewrite Hzero.
    rewrite andb_false_r. reflexivity.
Qed.

(** ** The regime selection of the generator *)

(** C2 (as amended). Let [coin] be the uniform draw of the call, a number in
    [0, 1), and [up], [neutral] the cumulative thresholds of the row of the
    current regime. A call of the generator that returns selects Up when
    [coin < up], else Neutral when [coin < neutral], else Down. A coin equal
    to [up] never selects Up: it selects Neutral when [up < neutral] and
    Down when [neutral <= up]. *)
Theorem exog_info_fn_regime m info m' df b row up neutral :
  exog_info_fn m = (Ok info, m') ->
  initial_args_exog_params m !! "biasdf" = Some (PFrame df) ->
  assoc "bias" (state m) = Some (VStr b) ->
  assoc b df = Some row ->
  assoc "Up" row = Some up -> assoc "Neutral" row = Some neutral ->
  let coin := fst (uniform (prng m)) in
  (0 <= coin /\ coin < 1)%Q /\
  ((coin < up)%Q -> info !! "bias" = Some (VStr "Up")) /\
  ((up <= coin)%Q -> (coin < neutral)%Q ->
   info !! "bias" = Some (VStr "Neutral")) /\
  ((up <= coin)%Q -> (neutral <= coin)%Q ->
   info !! "bias" = Some (VStr "Down")) /\
  ((coin == up)%Q ->
   info !! "bias" <> Some (VStr "Up") /\
   ((up < neutral)%Q -> info !! "bias" = Some (VStr "Neutral")) /\
   ((neutral <= up)%Q -> info !! "bias" = Some (VStr "Down"))).
Proof.
  intros Hrun Hdf Hb Hrow Hup Hne coin.
  destruct (exog_info_fn_ok _ _ _ Hrun)
    as (df' & b' & row' & nb & var & delta & pv & p & Hdf' & Hb' & Hrow'
        & Hch & _ & _ & _ & _ & Hinfo).
  rewrite Hdf in Hdf'. injection Hdf' as <-.
  rewrite Hb in Hb'. injection Hb' as <-.
  simpl in Hrow'. rewrite Hrow in Hrow'. injection Hrow' as <-.
  fold coin in Hch.
  assert (Hbias : info !! "bias" = Some (VStr (fst nb))).
  { subst info. vm_compute. reflexivity. }
  rewrite Hbias. clear Hinfo Hbias.
  destruct (choose_bias_ok _ _ _ _ Hch) as (up' & Hup' & Hcase).
  rewrite Hup in Hup'. injection Hup' as <-.
  assert (Hsel :
    (Qltb coin up = true /\ fst nb = "Up") \/
    (Qltb coin up = false /\ Qltb coin neutral = true /\ fst nb = "Neutral") \/
    (Qltb coin up = false /\ Qltb coin neutral = false /\ fst nb = "Down")).
  { destruct Hcase as [(Hlt & Hl & _) | (Hge & neutral' & Hne' & Hcase)].
    - left. split; assumption.
    - rewrite Hne in Hne'. injection Hne' as <-.
      destruct Hcase as [(Hlt & ->) | (Hge2 & Hl & _)].
      + right; left. repeat split; assumption.
      + right; right. repeat split; assumption. }
  split; [exact (uniform_range (prng m))|].
  rewrite !Qltb_lt, !Qltb_ge in Hsel.
  destruct Hsel as [(Hlt & ->) | [(Hge & Hlt & ->) | (Hge & Hge2 & ->)]].
  - repeat split; try reflexivity; intros; exfalso; lra.
  - repeat split; try reflexivity; try discriminate; intros; exfalso; lra.
  - repeat split; try reflexivity; try discriminate; intros; exfalso; lra.
Qed.

(** ** The transition function *)

(** C3. For every state, decision and generator output, [transition_fn]
    returns the new resource 0 when [decision.sell == 1] and the resource of
    the current state otherwise, and the new smoothed price
    [(1 - alpha) * price_smoothed + alpha * new_price] with [alpha = 0.7];
    no call of [transition_fn], returning or raising, touches the model, so
    it draws nothing from the random source. *)
Theorem transition_fn_spec d info m sellv resource psv ps npv new_price :
  assoc "sell" d = Some sellv ->
  (py_eq sellv (VNum 1) = false ->
   assoc "resource" (state m) = Some resource) ->
  assoc "price_smoothed" (state m) = Some psv -> as_num psv = Some ps ->
  info !! "price" = Some npv -> as_num npv = Some new_price ->
  (exists upd,
     transition_fn d info m = (Ok upd, m) /\
     upd !! "resource"
       = Some (if py_eq sellv (VNum 1) then VNum 0 else resource) /\
     upd !! "price_smoothed"
       = Some (VNum ((1 - (7 # 10)) * ps + (7 # 10) * new_price))) /\
  (forall d0 info0 m0,
     snd (transition_fn d0 info0 m0) = m0 /\
     prng (snd (transition_fn d0 info0 m0)) = prng m0).
Proof.
  intros Hsell Hres Hpsv Hps Hnpv Hnp. split.
  - exists (transition_update sellv resource ps new_price).
    split; [|split].
    + eapply transition_fn_succeeds; eassumption.
    + unfold transition_update. apply lookup_insert_eq.
    + unfold transition_update.
      rewrite lookup_insert_ne by discriminate. apply lookup_insert_eq.
  - intros d0 info0 m0.
    pose proof (transition_fn_frame d0 info0 m0) as Hf.
    rewrite <- Hf. split; reflexivity.
Qed.

(** ** What a step mutates *)

(** C9. A call of [step], returning or raising, leaves the configuration of
    the model as it was: the seed, [T] and the exogenous parameters of
    [initial_args], the initial state and the two schemas; it changes at
    most the state, the objective and the random source, and so does every
    sequence of calls. The generator changes at most the random source, and
    what it returns has exactly the keys [price] and [bias]. *)
Theorem step_mutates_only_state_objective_prng d m :
  same_config m (snd (step d m)) /\
  (forall ds, same_config m (snd (run ds m))) /\
  only_prng_changed m (snd (exog_info_fn m)) /\
  (forall info, fst (exog_info_fn m) = Ok info ->
                dom info = ({["price"]} ∪ {["bias"]} : gset string)).
Proof.
  split; [apply step_frame|].
  split; [intros ds; apply run_frame|].
  split; [apply exog_info_fn_frame|].
  intros info Hinfo.
  destruct (exog_info_fn m) as [r m1] eqn:Hrun. simpl in Hinfo. subst r.
  destruct (exog_info_fn_ok _ _ _ Hrun)
    as (df & b & row & nb & var & delta & pv & p & _ & _ & _ & _ & _ & _
        & _ & _ & ->).
  rewrite !dom_insert_L, dom_empty_L. set_solver.
Qed.

(** ** Decisions that do not sell *)

(** C10. When [decision.sell] is a value that does not equal 1 (whatever it
    is, not only 0) the decision is a hold: [transition_fn] returns the
    resource of the current state, the state returned by [step] has the
    resource of the state before, and [step] adds 0 to the objective. On a
    well-formed model [step] returns for such a decision. *)
Theorem not_one_is_hold m d sellv :
  assoc "sell" d = Some sellv ->
  py_eq sellv (VNum 1) = false ->
  (forall info upd m',
     transition_fn d info m = (Ok upd, m') ->
     upd !! "resource" = assoc "resource" (state m)) /\
  (forall s' m',
     conforms m -> step d m = (Ok s', m') ->
     assoc "resource" s' = assoc "resource" (state m) /\
     (objective m' - objective m == 0)%Q) /\
  (well_formed m -> exists s' m', step d m = (Ok s', m')).
Proof.
  intros Hsell Hne. split; [|split].
  - intros info upd m' Htr.
    destruct (transition_fn_ok _ _ _ _ _ Htr)
      as (_ & sellv' & newres & psv & ps & npv & np & Hsell' & Hres & _ & _
          & _ & _ & ->).
    rewrite Hsell in Hsell'. injection Hsell' as <-.
    rewrite Hne in Hres. rewrite Hres. apply lookup_insert_eq.
  - intros s' m' Hconf Hrun.
    destruct (step_fields _ _ _ _ Hconf Hrun)
      as (sellv' & resource & pv & p & psv & ps & delta & label & Hsell'
          & Hres & _ & _ & _ & _ & Hres' & _ & _ & _ & Hobj).
    rewrite Hsell in Hsell'. injection Hsell' as <-.
    rewrite Hne in Hres'. split; [congruence|].
    rewrite Hobj, (sell_size_hold _ _ Hne).
    change (inject_Z 0) with 0%Q. ring.
  - intros Hwf.
    destruct (step_succeeds m d sellv Hwf Hsell) as (s' & m' & Hrun & _).
    exists s', m'. exact Hrun.
Qed.

(** ** Prices are not negative *)

Lemma prng_normal_draw loc scale m x m' :
  prng_normal loc scale m = (Ok x, m') ->
  exists l s,
    loc = PVal l /\ scale = PVal s /\ normal l s (prng m) = (Ok x, prng m').
Proof.
  unfold prng_normal.
  destruct loc as [l|]; simpl; [|discriminate].
  destruct scale as [s|]; simpl; [|discriminate].
  destruct (normal l s (prng m)) as [r g] eqn:Hn. simpl.
  intros [= -> <-]. exists l, s. simpl.
  split; [reflexivity | split; [reflexivity | exact Hn]].
Qed.

Lemma step_price_nonneg d m s' m' :
  conforms m -> step d m = (Ok s', m') -> price_nonneg s'.
Proof.
  intros Hconf Hrun.
  destruct (step_fields _ _ _ _ Hconf Hrun)
    as (sellv & resource & pv & p & psv & ps & delta & label & _ & _ & _ & _
        & _ & _ & _ & Hprice & _).
  exists (clamp (p + delta)). split; [exact Hprice | apply clamp_nonneg].
Qed.

Lemma step_state d m s' m' : step d m = (Ok s', m') -> state m' = s'.
Proof.
  intros Hrun.
  destruct (step_next_state _ _ _ _ Hrun)
    as (sellv & resource & pv & p & psv & ps & delta & label & _ & _ & _ & _
        & _ & _ & _ & Hst & _).
  exact Hst.
Qed.

(** C4. The generator returns the current price plus the normal draw,
    replaced by 0 when that sum is negative: the draw is the drift of the
    regime it has just selected ([UpStep] for Up, 0 for Neutral, [DownStep]
    for Down) plus [Variance] times the standard normal sample that follows
    the uniform one.  Hence the price of every state returned by [step] is a
    number that is at least 0, whatever the decisions and the random source,
    along every sequence of calls. *)
Theorem price_never_negative :
  (forall m info m' pv p,
     exog_info_fn m = (Ok info, m') ->
     assoc "price" (state m) = Some pv -> as_num pv = Some p ->
     exists label dv drift sv scale,
       info !! "bias" = Some (VStr label) /\
       ((label = "Up" /\
         initial_args_exog_params m !! "UpStep" = Some (PVal dv)) \/
        (label = "Neutral" /\ dv = VNum 0) \/
        (label = "Down" /\
         initial_args_exog_params m !! "DownStep" = Some (PVal dv))) /\
       as_num dv = Some drift /\
       initial_args_exog_params m !! "Variance" = Some (PVal sv) /\
       as_num sv = Some scale /\
       let delta :=
         (drift + scale * fst (standard_normal (snd (uniform (prng m)))))%Q in
       normal dv sv (snd (uniform (prng m))) = (Ok delta, prng m') /\
       info !! "price"
         = Some (VNum (if Qltb (p + delta) 0 then 0%Q else (p + delta)%Q)) /\
       forall x, info !! "price" = Some (VNum x) -> (0 <= x)%Q) /\
  (forall d m s' m',
     conforms m -> step d m = (Ok s', m') -> price_nonneg s') /\
  (forall ds m ss m',
     conforms m -> run ds m = (Ok ss, m') -> Forall price_nonneg ss).
Proof.
  split; [|split].
  - intros m info m' pv p Hrun Hpv Hp.
    destruct (exog_info_fn_ok _ _ _ Hrun)
      as (df & b & row & nb & var & delta & pv' & p' & _ & _ & _ & Hch & Hvar
          & Hnorm & Hpv' & Hp' & ->).
    rewrite Hpv in Hpv'. injection Hpv' as <-.
    rewrite Hp in Hp'. injection Hp' as <-.
    destruct (prng_normal_draw _ _ _ _ _ Hnorm) as (lv0 & sv0 & Hl0 & Hs0 & Hdraw).
    destruct (prng_normal_ok _ _ _ _ _ Hnorm)
      as (lv & sv & l & s & Hloc & -> & Hl & Hs & Hneg & -> & Hm').
    rewrite Hloc in Hl0. injection Hl0 as <-. injection Hs0 as <-.
    simpl in Hdraw.
    destruct nb as [label bias]. simpl in Hloc. subst bias.
    exists label, lv, l, sv, s.
    split; [vm_compute; reflexivity|].
    split.
    { destruct (choose_bias_ok _ _ _ _ Hch) as (up & _ & Hcase).
      simpl in Hcase.
      destruct Hcase as [(_ & -> & Hu) | (_ & neutral & _ & Hcase)].
      - left. split; [reflexivity | exact Hu].
      - destruct Hcase as [(_ & [= -> ->]) | (_ & -> & Hd)].
        + right; left. split; reflexivity.
        + right; right. split; [reflexivity | exact Hd]. }
    split; [exact Hl|]. split; [exact Hvar|]. split; [exact Hs|].
    cbv zeta. split; [exact Hdraw|].
    split; [apply lookup_insert_eq|].
    intros x Hx. rewrite lookup_insert_eq in Hx. injection Hx as <-.
    unfold clamp. simpl prng.
    destruct (Qltb (p + _) 0) eqn:Hc;
      [apply Qle_refl | apply Qltb_ge in Hc; exact Hc].
  - intros d m s' m'. apply step_price_nonneg.
  - intros ds. induction ds as [|d ds IH]; intros m ss m' Hconf Hrun.
    + apply run_nil_ok in Hrun. destruct Hrun as [-> _]. constructor.
    + apply run_cons_ok in Hrun.
      destruct Hrun as (s & m1 & ss' & Hstep & Hrun & ->).
      constructor.
      * exact (step_price_nonneg _ _ _ _ Hconf Hstep).
      * exact (IH _ _ _ (step_conforms _ _ _ _ Hstep) Hrun).
Qed.

(** ** Random draws and reproducibility *)


(** ** The resource never comes back *)

Lemma step_resource_zero d m s' m' :
  conforms m -> step d m = (Ok s', m') ->
  resource_is_zero (state m) -> resource_is_zero s'.
Proof.
  intros Hconf Hrun (r & Hr & Hzero).
  destruct (step_fields _ _ _ _ Hconf Hrun)
    as (sellv & resource & pv & p & psv & ps & delta & label & _ & Hres & _
        & _ & _ & _ & Hres' & _).
  rewrite Hr in Hres. injection Hres as <-.
  eexists. split; [exact Hres'|].
  destruct (py_eq sellv (VNum 1)); [reflexivity | exact Hzero].
Qed.

Lemma step_resource_between d m s' m' q :
  conforms m -> step d m = (Ok s', m') ->
  resource_between 0 q (state m) -> resource_between 0 q s'.
Proof.
  intros Hconf Hrun (q0 & Hq0 & Hlo & Hhi).
  destruct (step_fields _ _ _ _ Hconf Hrun)
    as (sellv & resource & pv & p & psv & ps & delta & label & _ & Hres & _
        & _ & _ & _ & Hres' & _).
  unfold resource_between, resource_num in *.
  rewrite Hres in Hq0. rewrite Hres'.
  destruct (py_eq sellv (VNum 1)).
  - exists 0%Q. simpl. split; [reflexivity|]. split; lra.
  - exists q0. split; [exact Hq0|]. split; assumption.
Qed.

(** A property of states that every step keeps holds along a run. *)
Lemma run_invariant (P : namedtuple -> Prop) :
  (forall d m s' m',
     conforms m -> step d m = (Ok s', m') -> P (state m) -> P s') ->
  forall ds m ss m',
    conforms m -> run ds m = (Ok ss, m') -> P (state m) -> Forall P ss.
Proof.
  intros Hstep ds. induction ds as [|d ds IH]; intros m ss m' Hconf Hrun HP.
  - apply run_nil_ok in Hrun. destruct Hrun as [-> _]. constructor.
  - apply run_cons_ok in Hrun.
    destruct Hrun as (s & m1 & ss' & Hs & Hrun & ->).
    pose proof (Hstep _ _ _ _ Hconf Hs HP) as HPs.
    constructor; [exact HPs|].
    apply (IH m1 ss' m' (step_conforms _ _ _ _ Hs) Hrun).
    rewrite (step_state _ _ _ _ Hs). exact HPs.
Qed.

(** The states after a given state of a trajectory are themselves the
    trajectory of a run that starts in that state. *)
Lemma run_suffix (l1 : list namedtuple) : forall ds m ss m' s l2,
  conforms m -> run ds m = (Ok ss, m') ->
  state m :: ss = (l1 ++ s :: l2)%list ->
  exists ds2 m2,
    conforms m2 /\ state m2 = s /\ run ds2 m2 = (Ok l2, m').
Proof.
  induction l1 as [|a l1 IH]; intros ds m ss m' s l2 Hconf Hrun Heq.
  - simpl in Heq. injection Heq as <- <-. exists ds, m.
    repeat split; assumption.
  - simpl in Heq. injection Heq as _ Hss.
    destruct ds as [|d ds].
    + apply run_nil_ok in Hrun. destruct Hrun as [-> _].
      destruct l1; discriminate.
    + apply run_cons_ok in Hrun.
      destruct Hrun as (s1 & m1 & ss' & Hs & Hrun & ->).
      apply (IH ds m1 ss' m' s l2 (step_conforms _ _ _ _ Hs) Hrun).
      rewrite (step_state _ _ _ _ Hs). exact Hss.
Qed.

(** C6. Along every trajectory (the state before the first step, then the
    states returned by the steps) and for every decision sequence: once a
    state has resource 0, every later state has resource 0; and a resource
    that is a number not below 0 (0 or 1 in the data model) never goes up:
    every later resource is a number between 0 and it. *)
Theorem resource_non_increasing ds m ss m' (l1 : list namedtuple) s l2 :
  conforms m ->
  run ds m = (Ok ss, m') ->
  state m :: ss = (l1 ++ s :: l2)%list ->
  (resource_is_zero s -> Forall resource_is_zero l2) /\
  (forall q, resource_num s = Some q -> (0 <= q)%Q ->
             Forall (fun s2 => exists q2, resource_num s2 = Some q2 /\
                                          (0 <= q2 /\ q2 <= q)%Q) l2).
Proof.
  intros Hconf Hrun Heq.
  destruct (run_suffix _ _ _ _ _ _ _ Hconf Hrun Heq)
    as (ds2 & m2 & Hconf2 & <- & Hrun2).
  split.
  - intros Hzero.
    exact (run_invariant resource_is_zero step_resource_zero
             _ _ _ _ Hconf2 Hrun2 Hzero).
  - intros q Hq Hpos.
    apply (run_invariant (resource_between 0 q)
             (fun d m0 s0 m0' => step_resource_between d m0 s0 m0' q)
             _ _ _ _ Hconf2 Hrun2).
    exists q. split; [exact Hq|]. split; [exact Hpos | apply Qle_refl].
Qed.

(** ** The objective never decreases *)





(** ** Construction *)

Lemma init_succeeds sv dv s0 e0 T seed df :
  e0 !! "biasdf" = Some (PFrame df) ->
  (0 <= seed)%Z ->
  forallb valid_field_name sv = true -> NoDup sv ->
  forallb valid_field_name dv = true -> NoDup dv ->
  Forall (fun k => is_Some (s0 !! k)) sv ->
  exists st,
    build_tuple sv s0 = Ok st /\
    init sv dv s0 e0 T seed
    = (Ok (mkModel seed T (<["biasdf" := PFrame (cumsum_axis1 df)]> e0)
             (default_rng seed) s0 sv dv st 0%Q),
       <["biasdf" := PFrame (cumsum_axis1 df)]> e0).
Proof.
  intros Hdf Hseed Hvsv Hsv Hvdv Hdv Hs0.
  destruct (build_tuple_succeeds sv s0 Hs0) as (st & Hst).
  exists st. split; [exact Hst|].
  unfold init, getitem, namedtuple_class. rewrite Hdf. simpl.
  destruct (Z.ltb_spec seed 0) as [Hneg|_]; [lia|]. simpl.
  rewrite Hvsv, Hvdv.
  rewrite !bool_decide_eq_true_2 by assumption. simpl.
  rewrite Hst. reflexivity.
Qed.

Lemma init_conforms sv dv s0 e0 T seed m e1 :
  init sv dv s0 e0 T seed = (Ok m, e1) -> conforms m.
Proof.
  unfold init. intros Hinit.
  destruct (result_bind (getitem e0 "biasdf") param_cumsum) as [cum|];
    [|discriminate].
  injection Hinit as Hm _.
  apply result_bind_ok in Hm. destruct Hm as (_ & _ & Hm).
  apply result_bind_ok in Hm. destruct Hm as (_ & _ & Hm).
  apply result_bind_ok in Hm. destruct Hm as (st & Hst & Hm).
  apply result_bind_ok in Hm. destruct Hm as (_ & _ & [= <-]).
  exact (build_tuple_fields _ _ _ Hst).
Qed.



Lemma assoc_cumsum_axis1 r (df : DataFrame) :
  assoc r (cumsum_axis1 df) = series_cumsum <$> assoc r df.
Proof.
  induction df as [|[r' row] df IH]; simpl; [reflexivity|].
  case_bool_decide; [reflexivity | exact IH].
Qed.


(** C8 (as amended). Construction does not look at the contents of
    [biasdf]: for every table, whatever its rows sum to and whatever columns
    it has, construction returns a model, with the table replaced by its
    row-wise running sums in the exogenous parameters (the caller's dict
    included), as soon as the other arguments are accepted: a seed that is
    not negative, schemas of distinct valid field names, and an initial
    state with every field of the state schema. *)
Theorem init_accepts_every_biasdf sv dv s0 e0 T seed df :
  e0 !! "biasdf" = Some (PFrame df) ->
  (0 <= seed)%Z ->
  forallb valid_field_name sv = true -> NoDup sv ->
  forallb valid_field_name dv = true -> NoDup dv ->
  Forall (fun k => is_Some (s0 !! k)) sv ->
  exists m,
    init sv dv s0 e0 T seed
    = (Ok m, <["biasdf" := PFrame (cumsum_axis1 df)]> e0) /\
    initial_args_exog_params m
    = <["biasdf" := PFrame (cumsum_axis1 df)]> e0 /\
    conforms m.
Proof.
  intros Hdf Hseed Hvsv Hsv Hvdv Hdv Hs0.
  destruct (init_succeeds sv dv s0 e0 T seed df Hdf Hseed Hvsv Hsv Hvdv Hdv
              Hs0) as (st & Hst & Hinit).
  eexists. split; [exact Hinit|]. split; [reflexivity|].
  exact (init_conforms _ _ _ _ _ _ _ _ Hinit).
Qed.

End Properties.

(** ** The scenario of the specification, run *)

Lemma demo_init_ok :
  demo_init
  = (Ok demo_model,
     <["biasdf" := PFrame (cumsum_axis1 demo_biasdf)]> demo_exog_0).
Proof. vm_compute. reflexivity. Qed.

Lemma demo_model_well_formed : well_formed demo_model.
Proof.
  constructor.
  - eexists. split; [vm_compute; reflexivity|].
    intros r [<-|[<-|[<-|[]]]]; eexists _, _, _;
      repeat apply conj; vm_compute; reflexivity.
  - eexists _, _. split; vm_compute; reflexivity.
  - eexists _, _. split; vm_compute; reflexivity.
  - exists 2%Q. split.
    + eexists. split; vm_compute; reflexivity.
    + vm_compute. discriminate.
  - vm_compute. repeat constructor; simpl; tauto.
  - vm_compute. reflexivity.
  - eexists. vm_compute. reflexivity.
  - eexists _, _. split; vm_compute; reflexivity.
  - eexists _, _. split; vm_compute; reflexivity.
  - exists "Neutral". split; [vm_compute; reflexivity | simpl; tauto].
Qed.


Lemma demo_model_conforms : conforms demo_model.
Proof. vm_compute. reflexivity. Qed.

Lemma demo_decisions_have_sell :
  Forall has_sell scenario_decisions.
Proof. repeat constructor; eexists; reflexivity. Qed.

(** The scenario: four holds and a sale. The resource ends at 0 and the
    objective is the price before the fifth transition. *)
Example scenario_five_steps :
  exists s1 s2 s3 s4 s5 m' p,
    run scenario_decisions demo_model
    = (Ok [s1; s2; s3; s4; s5], m') /\
    assoc "resource" s5 = Some (VNum 0) /\
    assoc "price" s4 = Some (VNum p) /\ (objective m' == p)%Q.
Proof. do 7 eexists. repeat apply conj; vm_compute; reflexivity. Qed.

(** What the constructor does reject: a negative seed, a field name that
    is a keyword, a repeated field name, an initial state without a field
    of the schema, exogenous parameters without a table. *)
Example init_rejects :
  fst (init (G := lcg) demo_state_variable demo_decision_variable
         demo_state_0 demo_exog_0 default_T (-1)) = Raise ValueError /\
  fst (init (G := lcg) ["price"; "class"] demo_decision_variable
         demo_state_0 demo_exog_0 default_T default_seed)
  = Raise ValueError /\
  fst (init (G := lcg) ["price"; "price"] demo_decision_variable
         demo_state_0 demo_exog_0 default_T default_seed)
  = Raise ValueError /\
  fst (init (G := lcg) ["price"; "volume"] demo_decision_variable
         demo_state_0 demo_exog_0 default_T default_seed)
  = Raise (KeyError "volume") /\
  fst (init (G := lcg) demo_state_variable demo_decision_variable
         demo_state_0 ∅ default_T default_seed)
  = Raise (KeyError "biasdf").
Proof. repeat apply conj; vm_compute; reflexivity. Qed.

(** A table without a Down column or row is accepted by the constructor
    and by every step: the Down threshold is never looked up, and with
    Up and Neutral summing to 1 the regime Down is never selected. A table
    without a Neutral column is accepted by the constructor and fails in
    the first step whose draw is not below the Up threshold. *)
Example missing_columns_at_step :
  is_ok (fst (run scenario_decisions
                (from_ok demo_model (fst (init_with_biasdf no_down_biasdf)))))
  = true /\
  is_ok (fst (init_with_biasdf [("Neutral", [("Up", 1 # 2)])])) = true /\
  fst (step hold_now
         (from_ok demo_model
            (fst (init_with_biasdf [("Neutral", [("Up", 1 # 2)])]))))
  = Raise (KeyError "Neutral").
Proof. repeat apply conj; vm_compute; reflexivity. Qed.

(** Values of [sell] that are equal to 1, and values that are not. *)
Example sell_values_equal_to_one :
  py_eq (VNum 1) (VNum 1) = true /\ py_eq (VNum (2 # 2)) (VNum 1) = true /\
  py_eq (VBool true) (VNum 1) = true.
Proof. repeat split. Qed.

Example sell_values_not_equal_to_one :
  py_eq (VNum 0) (VNum 1) = false /\ py_eq (VNum 2) (VNum 1) = false /\
  py_eq (VNum (-1)) (VNum 1) = false /\ py_eq (VStr "1") (VNum 1) = false /\
  py_eq VNone (VNum 1) = false /\ py_eq (VBool false) (VNum 1) = false.
Proof. repeat split. Qed.

(** *** Instances of the theorems on the scenario *)

Lemma step_adds_reward_witness :
  exists s' m',
    step sell_now demo_model = (Ok s', m') /\
    (objective m' - objective demo_model == 10)%Q.
Proof.
  destruct (step_adds_reward demo_model sell_now (VNum 1) (VNum 1)
              (VNum 10) 10)
    as [_ Hwf]; try (vm_compute; reflexivity).
  destruct (Hwf demo_model_well_formed) as (s' & m' & Hrun & Hadd & _).
  exists s', m'. split; [exact Hrun|]. rewrite Hadd. reflexivity.
Defined.

Lemma exog_info_fn_regime_witness :
  exists info m',
    exog_info_fn demo_model = (Ok info, m') /\
    info !! "bias" = Some (VStr "Neutral").
Proof.
  eexists _, _. split; [vm_compute; reflexivity|].
  edestruct (exog_info_fn_regime demo_model) as (_ & _ & Hneutral & _);
    [vm_compute; reflexivity .. |].
  apply Hneutral; vm_compute; first [reflexivity | discriminate].
Defined.

(** C2, as stated, fails: with cumulative thresholds Up = 1/2 and
    Neutral = 1/2 for the current regime and a uniform draw equal to 1/2,
    the coin is equal to the Up threshold and the generator selects Down,
    not Neutral. *)
Lemma coin_at_up_threshold_selects_down :
  exists df row up neutral info m',
    fst tie_init = Ok tie_model /\
    initial_args_exog_params tie_model !! "biasdf" = Some (PFrame df) /\
    assoc "bias" (state tie_model) = Some (VStr "Neutral") /\
    assoc "Neutral" df = Some row /\
    assoc "Up" row = Some up /\ assoc "Neutral" row = Some neutral /\
    (fst (uniform (prng tie_model)) == up)%Q /\
    exog_info_fn tie_model = (Ok info, m') /\
    info !! "bias" = Some (VStr "Down") /\
    info !! "bias" <> Some (VStr "Neutral").
Proof.
  do 6 eexists.
  repeat apply conj; try (vm_compute; reflexivity).
  vm_compute. discriminate.
Qed.

Lemma transition_fn_spec_witness :
  exists upd,
    transition_fn sell_now (<["price" := VNum (17 # 2)]> ∅) demo_model
    = (Ok upd, demo_model) /\
    upd !! "resource" = Some (VNum 0) /\
    upd !! "price_smoothed"
    = Some (VNum ((1 - (7 # 10)) * 10 + (7 # 10) * (17 # 2))).
Proof.
  destruct (transition_fn_spec sell_now (<["price" := VNum (17 # 2)]> ∅)
              demo_model (VNum 1) (VNum 1) (VNum 10) 10 (VNum (17 # 2))
              (17 # 2)) as [Hret _];
    [vm_compute; reflexivity | intros _; vm_compute; reflexivity
    | vm_compute; reflexivity .. | ].
  exact Hret.
Defined.

Lemma price_never_negative_witness :
  exists info m' x ss m2,
    exog_info_fn demo_model = (Ok info, m') /\
    info !! "bias" = Some (VStr "Neutral") /\
    info !! "price" = Some (VNum x) /\
    (x == 10 + (0 + 2 * fst (standard_normal (snd (uniform (prng demo_model))))))%Q /\
    (x == 17 # 2)%Q /\
    run scenario_decisions demo_model = (Ok ss, m2) /\
    Forall price_nonneg ss.
Proof.
  destruct (@price_never_negative lcg _) as (Hgen & _ & Hall).
  edestruct (Hgen demo_model) as
    (label & dv & drift & sv & scale & Hb & Hcase & Hd & Hv & Hs & _
     & Hprice & _); [vm_compute; reflexivity ..|].
  assert (label = "Neutral") as ->
    by (vm_compute in Hb; congruence).
  assert (dv = VNum 0) as ->
    by (destruct Hcase as [[? _] | [[_ ?] | [? _]]];
        [discriminate | assumption | discriminate]).
  assert (sv = VNum 2) as ->
    by (vm_compute in Hv; congruence).
  injection Hd as <-. injection Hs as <-.
  destruct (run_succeeds scenario_decisions demo_model
              demo_model_well_formed demo_decisions_have_sell)
    as (ss & m2 & Hrun & _).
  eexists _, _, _, ss, m2.
  split; [vm_compute; reflexivity|].
  split; [exact Hb|].
  split; [exact Hprice|].
  split; [vm_compute; reflexivity|].
  split; [vm_compute; reflexivity|].
  split; [exact Hrun|].
  exact (Hall _ _ _ _ demo_model_conforms Hrun).
Defined.

(** A trajectory that sells at the second step and tries again later. *)
Lemma resource_non_increasing_witness :
  exists s1 s2 s3 s4 m',
    run sell_twice_decisions demo_model = (Ok [s1; s2; s3; s4], m') /\
    Forall resource_is_zero [s3; s4].
Proof.
  do 5 eexists. split; [vm_compute; reflexivity|].
  edestruct (resource_non_increasing sell_twice_decisions demo_model)
    as [Hzero _];
    [ exact demo_model_conforms
    | vm_compute; reflexivity
    | instantiate (3 := [_; _]); reflexivity
    | ].
  apply Hzero. eexists. split; vm_compute; reflexivity.
Defined.

(** C8, as stated, fails: construction returns a model for a table whose
    rows sum to one half, and for a table that has no Down column and no
    Down row. *)
Lemma construction_accepts_invalid_biasdf :
  Forall (fun row => ~ (row_sum (snd row) == 1)%Q) short_biasdf /\
  is_ok (fst (init_with_biasdf short_biasdf)) = true /\
  Forall (fun row => assoc "Down" (snd row) = None) no_down_biasdf /\
  assoc "Down" no_down_biasdf = None /\
  is_ok (fst (init_with_biasdf no_down_biasdf)) = true.
Proof.
  repeat apply conj; try (vm_compute; reflexivity).
  - repeat constructor; vm_compute; discriminate.
  - repeat constructor.
Qed.

Lemma demo_state_0_has_fields :
  Forall (fun k => is_Some (demo_state_0 !! k)) demo_state_variable.
Proof. repeat constructor; eexists; vm_compute; reflexivity. Qed.

Lemma demo_state_variable_NoDup : NoDup demo_state_variable.
Proof. apply (bool_decide_unpack _). vm_compute. exact I. Qed.

Lemma demo_decision_variable_NoDup : NoDup demo_decision_variable.
Proof. apply (bool_decide_unpack _). vm_compute. exact I. Qed.

Lemma init_accepts_every_biasdf_witness :
  exists m,
    init_with_biasdf short_biasdf
    = (Ok m, <["biasdf" := PFrame (cumsum_axis1 short_biasdf)]>
               (<["biasdf" := PFrame short_biasdf]> demo_exog_0)) /\
    conforms m.
Proof.
  destruct (init_accepts_every_biasdf (G := lcg)
              demo_state_variable demo_decision_variable
              demo_state_0 (<["biasdf" := PFrame short_biasdf]> demo_exog_0)
              default_T default_seed short_biasdf)
    as (m & Hinit & _ & Hconf).
  - vm_compute. reflexivity.
  - vm_compute. discriminate.
  - vm_compute. reflexivity.
  - exact demo_state_variable_NoDup.
  - vm_compute. reflexivity.
  - exact demo_decision_variable_NoDup.
  - exact demo_state_0_has_fields.
  - exists m. split; [exact Hinit | exact Hconf].
Defined.

Lemma step_mutates_only_state_objective_prng_witness :
  initial_args_exog_params (snd (step sell_now demo_model))
  = initial_args_exog_params demo_model /\
  state_variable (snd (step sell_now demo_model)) = state_variable demo_model /\
  exists info,
    fst (exog_info_fn demo_model) = Ok info /\
    dom info = ({["price"]} ∪ {["bias"]} : gset string).
Proof.
  destruct (step_mutates_only_state_objective_prng sell_now demo_model)
    as ((_ & _ & Hep & _ & Hsv & _) & _ & _ & Hdom).
  split; [exact Hep|]. split; [exact Hsv|].
  eexists. split; [vm_compute; reflexivity|].
  apply Hdom. vm_compute. reflexivity.
Defined.

Lemma not_one_is_hold_witness :
  exists s' m',
    step [("sell", VNum 2)] demo_model = (Ok s', m') /\
    assoc "resource" s' = Some (VNum 1) /\
    (objective m' - objective demo_model == 0)%Q.
Proof.
  destruct (not_one_is_hold demo_model [("sell", VNum 2)] (VNum 2))
    as (_ & Hstep & Hret); try (vm_compute; reflexivity).
  destruct (Hret demo_model_well_formed) as (s' & m' & Hrun).
  exists s', m'. split; [exact Hrun|].
  destruct (Hstep s' m' demo_model_conforms Hrun) as [Hres Hobj].
  split; [rewrite Hres; vm_compute; reflexivity | exact Hobj].
Defined.

(** ** The dict given to the constructor is shared

    The constructor keeps the dict [exog_0] it is given and writes the
    cumulated table into it. A second model constructed from the same dict
    object therefore starts from the cumulated table and cumulates it
    again. *)
Remark init_shares_exog_0 :
  forall e1 m1 m2 e2,
    demo_init = (Ok m1, e1) ->
    init (G := lcg) demo_state_variable demo_decision_variable demo_state_0
      e1 default_T default_seed = (Ok m2, e2) ->
    initial_args_exog_params m1 !! "biasdf"
    = Some (PFrame (cumsum_axis1 demo_biasdf)) /\
    initial_args_exog_params m2 !! "biasdf"
    = Some (PFrame (cumsum_axis1 (cumsum_axis1 demo_biasdf))) /\
    initial_args_exog_params m1 <> initial_args_exog_params m2.
Proof.
  intros e1 m1 m2 e2 H1. rewrite demo_init_ok in H1.
  injection H1 as <- <-. intros H2.
  vm_compute in H2. injection H2 as <- <-.
  repeat apply conj; try (vm_compute; reflexivity).
  intros Heq.
  apply (f_equal (fun ep => ep !! "biasdf")) in Heq.
  vm_compute in Heq. discriminate.
Qed.

(** * Further properties of the class *)

Section Builders.

Context {G : Type} `{Generator G}.

Implicit Types (m : Model G) (d : namedtuple).

Lemma build_tuple_first_missing fields (info : gmap string value) :
  match first_missing fields info with
  | Some k => build_tuple fields info = Raise (KeyError k)
  | None => exists t, build_tuple fields info = Ok t
  end.
Proof.
  unfold first_missing.
  induction fields as [|k r IH]; simpl.
  - exists []. reflexivity.
  - unfold getitem. destruct (info !! k) as [v|] eqn:Hk; simpl.
    + destruct (find _ r) as [k'|].
      * rewrite IH. reflexivity.
      * destruct IH as [t Ht]. rewrite Ht. simpl. eauto.
    + reflexivity.
Qed.

Lemma build_tuple_present fields (info : gmap string value) t k :
  build_tuple fields info = Ok t -> In k fields -> is_Some (info !! k).
Proof.
  revert t. induction fields as [|k' r IH]; simpl; intros t Hb Hin.
  - contradiction.
  - apply result_bind_ok in Hb. destruct Hb as (v & Hv & Hb).
    apply result_bind_ok in Hb. destruct Hb as (t' & Ht' & _).
    destruct Hin as [<-|Hin].
    + exists v. exact (getitem_ok _ _ _ Hv).
    + exact (IH _ Ht' Hin).
Qed.

Lemma build_tuple_getattr fields (info : gmap string value) t k :
  build_tuple fields info = Ok t -> In k fields ->
  exists v, info !! k = Some v /\ getattr t k = Ok v.
Proof.
  intros Hb Hk. unfold getattr.
  rewrite (build_tuple_assoc _ _ _ _ Hb Hk).
  destruct (build_tuple_present _ _ _ _ Hb Hk) as [v Hv].
  exists v. rewrite Hv. split; reflexivity.
Qed.

(** X1. [build_state(info)] returns, exactly when [info] has an entry for
    every field of the state schema, a tuple with the fields of the schema
    in order and nothing else (entries of [info] outside the schema are
    dropped); reading a field of the schema from it gives the entry of
    [info]; the model is not touched. *)
Theorem build_state_round_trip info m :
  ((exists t, build_state info m = (Ok t, m))
   <-> Forall (fun k => is_Some (info !! k)) (state_variable m)) /\
  (forall t m',
     build_state info m = (Ok t, m') ->
     m' = m /\
     map fst t = state_variable m /\
     forall k,
       In k (state_variable m) ->
       exists v, info !! k = Some v /\ getattr t k = Ok v).
Proof.
  split; [split|].
  - intros [t Hb]. unfold build_state, bind, gets, lift in Hb.
    injection Hb as Hb.
    apply Forall_forall. intros k Hk. apply list_elem_of_In in Hk.
    exact (build_tuple_present _ _ _ _ Hb Hk).
  - intros Hall. destruct (build_tuple_succeeds _ _ Hall) as [t Ht].
    exists t. unfold build_state, bind, gets, lift. rewrite Ht. reflexivity.
  - intros t m' Hb. unfold build_state, bind, gets, lift in Hb.
    injection Hb as Hb <-.
    split; [reflexivity|]. split; [exact (build_tuple_fields _ _ _ Hb)|].
    intros k Hk. exact (build_tuple_getattr _ _ _ k Hb Hk).
Qed.

(** X2. When [info] lacks a field of the schema, [build_state] (and
    [build_decision] with the decision schema) raises [KeyError] for the
    first such field in schema order and leaves the model as it was; when no
    field is missing both return a tuple. *)
Theorem builders_raise_first_missing_key info m :
  match first_missing (state_variable m) info with
  | Some k => build_state info m = (Raise (KeyError k), m)
  | None => exists t, build_state info m = (Ok t, m)
  end /\
  match first_missing (decision_variable m) info with
  | Some k => build_decision info m = (Raise (KeyError k), m)
  | None =>
      exists t, build_decision info m = (Ok t, m) /\
                map fst t = decision_variable m
  end.
Proof.
  unfold build_state, build_decision, bind, gets, lift. split.
  - pose proof (build_tuple_first_missing (state_variable m) info) as Hb.
    destruct (first_missing (state_variable m) info).
    + rewrite Hb. reflexivity.
    + destruct Hb as [t Ht]. exists t. rewrite Ht. reflexivity.
  - pose proof (build_tuple_first_missing (decision_variable m) info) as Hb.
    destruct (first_missing (decision_variable m) info).
    + rewrite Hb. reflexivity.
    + destruct Hb as [t Ht]. exists t. rewrite Ht.
      split; [reflexivity | exact (build_tuple_fields _ _ _ Ht)].
Qed.

End Builders.

Section Construction.

Context {G : Type} `{Generator G}.

Implicit Types (m : Model G) (d : namedtuple).

Lemma namedtuple_class_ok fields :
  namedtuple_class fields = Ok tt ->
  forallb valid_field_name fields = true /\ NoDup fields.
Proof.
  unfold namedtuple_class.
  destruct (forallb valid_field_name fields); simpl; [|discriminate].
  case_bool_decide; [auto | discriminate].
Qed.

(** What a returning constructor call has checked and built. *)
Lemma init_ok sv dv s0 e0 T seed m e1 :
  init sv dv s0 e0 T seed = (Ok m, e1) ->
  exists df st,
    e0 !! "biasdf" = Some (PFrame df) /\
    (0 <= seed)%Z /\
    (forallb valid_field_name sv = true /\ NoDup sv) /\
    build_tuple sv s0 = Ok st /\
    (forallb valid_field_name dv = true /\ NoDup dv) /\
    e1 = <["biasdf" := PFrame (cumsum_axis1 df)]> e0 /\
    m = mkModel seed T e1 (default_rng seed) s0 sv dv st 0%Q.
Proof.
  unfold init. intros Hinit.
  destruct (result_bind (getitem e0 "biasdf") param_cumsum) as [cum|]
    eqn:Hcum; [|discriminate].
  apply result_bind_ok in Hcum. destruct Hcum as (pf & Hpf & Hcum).
  apply getitem_ok in Hpf.
  destruct pf as [v|df]; simpl in Hcum; [discriminate|].
  injection Hcum as <-.
  injection Hinit as Hm <-.
  apply result_bind_ok in Hm. destruct Hm as ([] & Hseed & Hm).
  apply result_bind_ok in Hm. destruct Hm as ([] & Hsv & Hm).
  apply result_bind_ok in Hm. destruct Hm as (st & Hst & Hm).
  apply result_bind_ok in Hm. destruct Hm as ([] & Hdv & [= <-]).
  exists df, st.
  destruct (Z.ltb_spec seed 0) as [Hneg|Hpos]; [discriminate|].
  repeat apply conj; try assumption; try reflexivity;
    first [ apply (namedtuple_class_ok _ Hsv)
          | apply (namedtuple_class_ok _ Hdv) ].
Qed.


(** X4. The model a constructor call returns: objective 0, a random source
    seeded with the seed, the schemas and the initial state as given, a
    state that is an instance of the state schema holding the entries of the
    initial state, and exogenous parameters that are the caller's dict after
    the call, in which only [biasdf] differs from what was passed: it is the
    table of row-wise running sums. *)
Theorem init_builds sv dv s0 e0 T seed m e1 :
  init sv dv s0 e0 T seed = (Ok m, e1) ->
  (objective m == 0)%Q /\
  prng m = default_rng seed /\
  initial_args_seed m = seed /\ initial_args_T m = T /\
  state_variable m = sv /\ decision_variable m = dv /\
  initial_state m = s0 /\
  map fst (state m) = sv /\
  (forall k, In k sv -> getattr (state m) k = getitem s0 k) /\
  initial_args_exog_params m = e1 /\
  (forall k, k <> "biasdf" -> e1 !! k = e0 !! k) /\
  exists df,
    e0 !! "biasdf" = Some (PFrame df) /\
    e1 !! "biasdf" = Some (PFrame (cumsum_axis1 df)).
Proof.
  intros Hinit.
  destruct (init_ok _ _ _ _ _ _ _ _ Hinit)
    as (df & st & Hdf & Hseed & Hsv & Hst & Hdv & -> & ->).
  simpl. repeat apply conj; try reflexivity.
  - exact (build_tuple_fields _ _ _ Hst).
  - intros k Hk.
    destruct (build_tuple_getattr _ _ _ k Hst Hk) as (v & Hv & Hget).
    rewrite Hget. unfold getitem. rewrite Hv. reflexivity.
  - intros k Hk. apply lookup_insert_ne. congruence.
  - exists df. split; [exact Hdf | apply lookup_insert_eq].
Qed.

(** X5. The dict passed as [exog_0] after a constructor call, whatever the
    call does: when it has a table under [biasdf] the table has been
    replaced by its running sums, also when the call then raises (a
    negative seed, a bad schema, an initial state that lacks a field);
    otherwise the call raises and the dict is as it was. *)
Theorem init_leaves_callers_dict sv dv s0 e0 T seed :
  (forall df,
     e0 !! "biasdf" = Some (PFrame df) ->
     snd (init (G := G) sv dv s0 e0 T seed)
     = <["biasdf" := PFrame (cumsum_axis1 df)]> e0 /\
     ((seed < 0)%Z ->
      fst (init (G := G) sv dv s0 e0 T seed) = Raise ValueError)) /\
  (e0 !! "biasdf" = None ->
   init (G := G) sv dv s0 e0 T seed = (Raise (KeyError "biasdf"), e0)) /\
  (forall v,
     e0 !! "biasdf" = Some (PVal v) ->
     init (G := G) sv dv s0 e0 T seed
     = (Raise (AttributeError "cumsum"), e0)).
Proof.
  unfold init, getitem. split; [|split].
  - intros df Hdf. rewrite Hdf. simpl. split; [reflexivity|].
    intros Hneg. destruct (Z.ltb_spec seed 0) as [_|Hpos]; [reflexivity|lia].
  - intros Hnone. rewrite Hnone. reflexivity.
  - intros v Hv. rewrite Hv. reflexivity.
Qed.

(** X6. A second model constructed from the dict a first construction was
    given starts from the cumulated table and cumulates it again: the
    construction returns, and the table of the second model is the running
    sums of the running sums. For a row of three columns with raw entries
    [a], [b], [c] the thresholds of the second model are [a], [2a + b] and
    [3a + 2b + c]. *)
Theorem init_again_cumulates_again sv dv s0 e0 T seed m1 e1 :
  init sv dv s0 e0 T seed = (Ok m1, e1) ->
  exists df m2 e2,
    e0 !! "biasdf" = Some (PFrame df) /\
    init sv dv s0 e1 T seed = (Ok m2, e2) /\
    initial_args_exog_params m2 !! "biasdf"
    = Some (PFrame (cumsum_axis1 (cumsum_axis1 df))) /\
    (forall r k1 k2 k3 a b c,
       assoc r df = Some [(k1, a); (k2, b); (k3, c)] ->
       exists x y z,
         assoc r (cumsum_axis1 (cumsum_axis1 df))
         = Some [(k1, x); (k2, y); (k3, z)] /\
         (x == a /\ y == 2 * a + b /\ z == 3 * a + 2 * b + c)%Q).
Proof.
  intros Hinit.
  destruct (init_ok _ _ _ _ _ _ _ _ Hinit)
    as (df & st & Hdf & Hseed & [Hvsv Hsv] & Hst & [Hvdv Hdv] & -> & ->).
  assert (Hs0 : Forall (fun k => is_Some (s0 !! k)) sv).
  { apply Forall_forall. intros k Hk. apply list_elem_of_In in Hk.
    exact (build_tuple_present _ _ _ _ Hst Hk). }
  destruct (init_succeeds sv dv s0
              (<["biasdf" := PFrame (cumsum_axis1 df)]> e0) T seed
              (cumsum_axis1 df) (lookup_insert_eq _ _ _) Hseed Hvsv Hsv Hvdv
              Hdv Hs0) as (st2 & _ & Hinit2).
  eexists df, _, _. split; [exact Hdf|]. split; [exact Hinit2|].
  split; [apply lookup_insert_eq|].
  intros r k1 k2 k3 a b c Hrow.
  rewrite !assoc_cumsum_axis1, Hrow. simpl.
  eexists _, _, _. split; [reflexivity|].
  repeat split; ring.
Qed.

End Construction.

(** ** The cumulated table *)

Lemma cumsum_from_labels acc (s : Series) :
  map fst (cumsum_from acc s) = map fst s.
Proof.
  revert acc. induction s as [|[k x] s IH]; simpl; intros acc.
  - reflexivity.
  - rewrite IH. reflexivity.
Qed.

Lemma cumsum_from_last acc (s : Series) x :
  last (map snd (cumsum_from acc s)) = Some x ->
  (x == acc + row_sum s)%Q.
Proof.
  revert acc x. induction s as [|[k v] s IH]; simpl; intros acc x.
  - discriminate.
  - destruct s as [|[k' v'] s'].
    + simpl. intros [= <-]. unfold row_sum. simpl. ring.
    + intros Hlast. change (row_sum ((k, v) :: (k', v') :: s'))
        with (v + row_sum ((k', v') :: s'))%Q.
      rewrite (IH (acc + v)%Q x Hlast). ring.
Qed.

Lemma cumsum_from_lower acc (s : Series) i x :
  nonneg_row s ->
  map snd (cumsum_from acc s) !! i = Some x -> (acc <= x)%Q.
Proof.
  intros Hs. revert acc i. induction Hs as [|[k v] s Hv _ IH]; intros acc i.
  - destruct i; discriminate.
  - simpl in Hv. destruct i as [|i]; simpl.
    + intros [= <-]. lra.
    + intros Hi. pose proof (IH _ _ Hi). lra.
Qed.

Lemma cumsum_from_sorted acc (s : Series) i j x y :
  nonneg_row s -> (i <= j)%nat ->
  map snd (cumsum_from acc s) !! i = Some x ->
  map snd (cumsum_from acc s) !! j = Some y -> (x <= y)%Q.
Proof.
  intros Hs. revert acc i j.
  induction Hs as [|[k v] s Hv Hs IH]; intros acc i j Hij.
  - destruct i; discriminate.
  - destruct i as [|i], j as [|j]; simpl; try lia.
    + intros [= <-] [= <-]. apply Qle_refl.
    + intros [= <-] Hj. exact (cumsum_from_lower _ _ _ _ Hs Hj).
    + apply IH. lia.
Qed.

(** X7. The running sums of a row, as the constructor stores them: the
    labels and their order are those of the raw row, the first threshold is
    the first raw entry, and the last threshold is the sum of the raw row
    (1 for a row that sums to 1). When no raw entry is negative the
    thresholds never decrease from left to right. The row stored for a
    regime is the running sums of the raw row of that regime. *)
Theorem cumulated_row_thresholds (s : Series) :
  map fst (series_cumsum s) = map fst s /\
  head (map snd (series_cumsum s)) = head (map snd s) /\
  (forall x, last (map snd (series_cumsum s)) = Some x ->
             (x == row_sum s)%Q) /\
  (nonneg_row s ->
   forall i j x y,
     (i <= j)%nat ->
     map snd (series_cumsum s) !! i = Some x ->
     map snd (series_cumsum s) !! j = Some y -> (x <= y)%Q) /\
  (forall (df : DataFrame) r,
     assoc r df = Some s ->
     assoc r (cumsum_axis1 df) = Some (series_cumsum s)).
Proof.
  destruct s as [|[k v] s]; simpl.
  - split; [reflexivity|]. split; [reflexivity|].
    split; [discriminate|]. split.
    + intros _ i j x y _ Hi. destruct i; discriminate.
    + intros df r Hr. rewrite assoc_cumsum_axis1, Hr. reflexivity.
  - split; [|split; [reflexivity|split; [|split]]].
    + rewrite cumsum_from_labels. reflexivity.
    + destruct s as [|[k' v'] s'].
      * simpl. intros x [= <-]. unfold row_sum. simpl. ring.
      * intros x Hlast.
        change (row_sum ((k, v) :: (k', v') :: s'))
          with (v + row_sum ((k', v') :: s'))%Q.
        change (last (map snd (cumsum_from v ((k', v') :: s'))) = Some x)
          in Hlast.
        exact (cumsum_from_last v _ x Hlast).
    + intros Hs i j x y Hij. inversion Hs as [|? ? Hv Hs']; subst.
      destruct i as [|i], j as [|j]; simpl; try lia.
      * intros [= <-] [= <-]. apply Qle_refl.
      * intros [= <-] Hj. exact (cumsum_from_lower _ _ _ _ Hs' Hj).
      * apply (cumsum_from_sorted v s i j x y Hs'). lia.
    + intros df r Hr. rewrite assoc_cumsum_axis1, Hr. reflexivity.
Qed.

Section Generation.

Context {G : Type} `{Generator G}.

Implicit Types (m : Model G) (d : namedtuple).

Lemma with_prng_twice g1 g2 m : with_prng g2 (with_prng g1 m) = with_prng g2 m.
Proof. reflexivity. Qed.

(** X8. The price the generator returns, in full: with [z] the standard
    normal draw that follows the uniform draw, the new price is
    [price + drift + Variance * z], or 0 where that is negative; the drift
    is [UpStep] when the new regime is Up, 0 when it is Neutral and
    [DownStep] when it is Down, and [Variance] is used as the scale of the
    draw, as it is (a number that is not negative). The model after the call
    is the model before with the random source after the two draws. *)
Theorem exog_info_fn_price_change m info m' pv p :
  exog_info_fn m = (Ok info, m') ->
  assoc "price" (state m) = Some pv -> as_num pv = Some p ->
  exists label dv drift sv scale,
    info !! "bias" = Some (VStr label) /\
    ((label = "Up" /\
      initial_args_exog_params m !! "UpStep" = Some (PVal dv)) \/
     (label = "Neutral" /\ dv = VNum 0) \/
     (label = "Down" /\
      initial_args_exog_params m !! "DownStep" = Some (PVal dv))) /\
    as_num dv = Some drift /\
    initial_args_exog_params m !! "Variance" = Some (PVal sv) /\
    as_num sv = Some scale /\ (0 <= scale)%Q /\
    info !! "price"
    = Some (VNum (clamp
                    (p + (drift + scale
                            * fst (standard_normal
                                     (snd (uniform (prng m)))))))) /\
    m' = with_prng (snd (standard_normal (snd (uniform (prng m))))) m.
Proof.
  intros Hrun Hpv Hp.
  destruct (exog_info_fn_ok _ _ _ Hrun)
    as (df & b & row & nb & var & delta & pv' & p' & _ & _ & _ & Hch & Hvar
        & Hnorm & Hpv' & Hp' & ->).
  rewrite Hpv in Hpv'. injection Hpv' as <-.
  rewrite Hp in Hp'. injection Hp' as <-.
  destruct (prng_normal_ok _ _ _ _ _ Hnorm)
    as (lv & sv & l & s & Hloc & -> & Hl & Hs & Hneg & -> & ->).
  apply Qltb_ge in Hneg.
  destruct nb as [label bias]. simpl in Hloc. subst bias.
  exists label, lv, l, sv, s.
  split; [vm_compute; reflexivity|].
  split.
  { destruct (choose_bias_ok _ _ _ _ Hch) as (up & _ & Hcase).
    simpl in Hcase.
    destruct Hcase as [(_ & -> & Hu) | (_ & neutral & _ & Hcase)].
    - left. split; [reflexivity | exact Hu].
    - destruct Hcase as [(_ & [= -> ->]) | (_ & -> & Hd)].
      + right; left. split; reflexivity.
      + right; right. split; [reflexivity | exact Hd]. }
  repeat apply conj; try assumption.
  - apply lookup_insert_eq.
  - reflexivity.
Qed.

(** X19. A threshold that has reached 1 closes the selection: when the Up
    threshold of the current row is at least 1 the generator always selects
    Up, and when the Neutral threshold is at least 1 it never selects Down
    (the draw being below 1). So a row whose running sums put Up last, or a
    table cumulated twice, changes the regime process without any error. *)
Theorem threshold_at_one_closes_selection m info m' df b row up :
  exog_info_fn m = (Ok info, m') ->
  initial_args_exog_params m !! "biasdf" = Some (PFrame df) ->
  assoc "bias" (state m) = Some (VStr b) ->
  assoc b df = Some row ->
  assoc "Up" row = Some up ->
  ((1 <= up)%Q -> info !! "bias" = Some (VStr "Up")) /\
  (forall neutral,
     assoc "Neutral" row = Some neutral -> (1 <= neutral)%Q ->
     info !! "bias" <> Some (VStr "Down")).
Proof.
  intros Hrun Hdf Hb Hrow Hup.
  destruct (exog_info_fn_ok _ _ _ Hrun)
    as (df' & b' & row' & nb & var & delta & pv & p & Hdf' & Hb' & Hrow'
        & Hch & _ & _ & _ & _ & ->).
  rewrite Hdf in Hdf'. injection Hdf' as <-.
  rewrite Hb in Hb'. injection Hb' as <-.
  simpl in Hrow'. rewrite Hrow in Hrow'. injection Hrow' as <-.
  assert (Hbias : (<["price" := VNum (clamp (p + delta))]>
                     (<["bias" := VStr (fst nb)]> ∅) : gmap string value)
                  !! "bias" = Some (VStr (fst nb)))
    by (vm_compute; reflexivity).
  rewrite Hbias. clear Hbias.
  destruct (uniform_range (prng m)) as [_ Hlt1].
  destruct (choose_bias_ok _ _ _ _ Hch) as (up' & Hup' & Hcase).
  rewrite Hup in Hup'. injection Hup' as <-.
  split.
  - intros Hone.
    destruct Hcase as [(_ & -> & _) | (Hge & _)]; [reflexivity|].
    apply Qltb_ge in Hge. exfalso. lra.
  - intros neutral Hne Hone.
    destruct Hcase as [(_ & -> & _) | (_ & neutral' & Hne' & Hcase)];
      [discriminate|].
    rewrite Hne in Hne'. injection Hne' as <-.
    destruct Hcase as [(_ & ->) | (Hge & _)]; [discriminate|].
    apply Qltb_ge in Hge. exfalso. lra.
Qed.

(** The generator on a model where its reads succeed and the scale is not
    negative. *)
Lemma exog_info_fn_runs m :
  readable m -> scale_nonneg m ->
  exists label newp,
    exog_info_fn m
    = (Ok (<["price" := VNum newp]> (<["bias" := VStr label]> ∅)),
       with_prng (two_draws (prng m)) m) /\
    In label regimes /\ (0 <= newp)%Q.
Proof.
  intros [(df & Hdf & Hrows) (qu & Hqu) (qd & Hqd) (qv & Hvar) _
          (pv & p & Hpv & Hp) _ (b & Hb & Hreg)] Hscale.
  pose proof (Hscale _ Hvar) as Hpos. destruct Hvar as (vv & Hvv & Hqv).
  destruct (Hrows b Hreg) as (row & up & neutral & Hrow & Hup & Hne).
  destruct (choose_bias_succeeds (initial_args_exog_params m) row
              (fst (uniform (prng m))) up neutral qu qd Hup Hne Hqu Hqd)
    as (label & v & q & Hch & Hq & Hlab).
  exists label.
  unfold exog_info_fn, bind, gets, lift, getitem, getattr, prng_uniform,
    prng_normal, normal, to_float, ret.
  rewrite Hdf. cbn [result_bind param_T]. rewrite Hb.
  cbn [frame_T_getitem]. rewrite Hrow. cbn [fst snd prng with_prng
    initial_args_exog_params state].
  rewrite Hch, Hvv. cbn [snd fst param_value]. rewrite Hq, Hqv.
  assert (Hn : Qltb qv 0 = false) by (apply Qltb_ge; exact Hpos).
  rewrite Hn. cbn [fst snd state with_prng]. rewrite Hpv, Hp.
  eexists. split; [reflexivity|]. split; [exact Hlab|].
  apply (clamp_nonneg (p + (q + qv * _))).
Qed.

Lemma well_formed_readable m :
  well_formed m -> readable m /\ scale_nonneg m.
Proof.
  intros [Hdf Hup Hdown (q & Hq & Hpos) _ _ Hres Hpv Hpsv Hb].
  split.
  - constructor; try assumption. exists q. exact Hq.
  - intros q' (v' & Hv' & Hq'). destruct Hq as (v & Hv & Hqv).
    rewrite Hv in Hv'. injection Hv' as <-.
    rewrite Hqv in Hq'. injection Hq' as <-. exact Hpos.
Qed.

End Generation.

Section Failures.

Context {G : Type} `{Generator G}.

Implicit Types (m : Model G) (d : namedtuple).

(** X14. A decision without a [sell] field makes [step] raise
    [AttributeError]; by then the generator has run, so the random source
    has advanced by the two draws of a step, while the state and the
    objective are as they were. *)
Theorem step_without_sell m d :
  readable m -> scale_nonneg m ->
  assoc "sell" d = None ->
  step d m
  = (Raise (AttributeError "sell"), with_prng (two_draws (prng m)) m).
Proof.
  intros Hrd Hscale Hsell.
  destruct (exog_info_fn_runs m Hrd Hscale) as (label & newp & Hexog & _).
  unfold step. rewrite (bind_step _ _ _ _ _ Hexog).
  unfold bind at 1. unfold gets at 1.
  unfold objective_fn, bind, lift, getattr. rewrite Hsell. reflexivity.
Qed.

(** X15. When the regime of the current state is not a row label of the
    table, [step] raises [KeyError] for it before drawing anything: the
    model, random source included, is as it was. It is the same for every
    decision. *)
Theorem step_unknown_regime m d df b :
  initial_args_exog_params m !! "biasdf" = Some (PFrame df) ->
  assoc "bias" (state m) = Some (VStr b) ->
  assoc b df = None ->
  step d m = (Raise (KeyError b), m).
Proof.
  intros Hdf Hb Hrow.
  unfold step, exog_info_fn, bind, gets, lift, getitem, getattr.
  rewrite Hdf. simpl. rewrite Hb. simpl. rewrite Hrow. reflexivity.
Qed.

(** X16. With a negative [Variance] every step raises [ValueError] from
    the normal draw, after the uniform draw has been taken: the random
    source has advanced by one draw, the state and the objective are as
    they were. The constructor does not reject such a parameter. *)
Theorem step_negative_scale m d q :
  readable m ->
  num_param (initial_args_exog_params m) "Variance" q -> (q < 0)%Q ->
  step d m = (Raise ValueError, with_prng (snd (uniform (prng m))) m).
Proof.
  intros [(df & Hdf & Hrows) (qu & Hqu) (qd & Hqd) _ _ _ _ (b & Hb & Hreg)]
    (vv & Hvv & Hqv) Hneg.
  destruct (Hrows b Hreg) as (row & up & neutral & Hrow & Hup & Hne).
  destruct (choose_bias_succeeds (initial_args_exog_params m) row
              (fst (uniform (prng m))) up neutral qu qd Hup Hne Hqu Hqd)
    as (label & v & ql & Hch & Hq & Hlab).
  unfold step, exog_info_fn, bind, gets, lift, getitem, getattr,
    prng_uniform, prng_normal, normal, to_float.
  rewrite Hdf. cbn [result_bind param_T]. rewrite Hb.
  cbn [frame_T_getitem]. rewrite Hrow. cbn [fst snd prng with_prng
    initial_args_exog_params state].
  rewrite Hch, Hvv. cbn [snd fst param_value]. rewrite Hq, Hqv.
  assert (Hn : Qltb q 0 = true) by (apply Qltb_lt; exact Hneg).
  rewrite Hn. reflexivity.
Qed.

Lemma next_info_unknown r s p b k :
  k ∉ state_fields -> next_info r s p b !! k = None.
Proof.
  intros Hk. unfold next_info, state_fields in *.
  apply lookup_union_None. split.
  - rewrite !lookup_insert_ne; [apply lookup_empty | |];
      intros <-; apply Hk; set_solver.
  - rewrite !lookup_insert_ne; [apply lookup_empty | |];
      intros <-; apply Hk; set_solver.
Qed.

Lemma first_missing_next_info fields r s p b :
  first_missing fields (next_info r s p b) = first_unknown_field fields.
Proof.
  unfold first_missing, first_unknown_field.
  induction fields as [|k fields IH]; simpl; [reflexivity|].
  case_bool_decide as Hk; simpl.
  - apply list_elem_of_In in Hk.
    destruct (next_info_keys r s p b k Hk) as [v ->]. exact IH.
  - rewrite (next_info_unknown r s p b k Hk). reflexivity.
Qed.

(** X17. A state schema with a field that [step] has no value for (a name
    other than [resource], [price], [price_smoothed], [bias]) is accepted
    by the constructor when the initial state has it, but then every step
    raises [KeyError] for the first such field, and only when the next state
    is built: the two draws are consumed and the contribution of the
    decision is already added to the objective, while the state stays the
    old one. *)
Theorem step_unknown_state_field m d k sellv resource pv p :
  readable m -> scale_nonneg m ->
  first_unknown_field (state_variable m) = Some k ->
  assoc "sell" d = Some sellv ->
  assoc "resource" (state m) = Some resource ->
  assoc "price" (state m) = Some pv -> as_num pv = Some p ->
  step d m
  = (Raise (KeyError k),
     with_objective
       (objective m + p * inject_Z (sell_size sellv resource))%Q
       (with_prng (two_draws (prng m)) m)).
Proof.
  intros Hrd Hscale Hk Hsell Hres Hpv Hp.
  destruct (exog_info_fn_runs m Hrd Hscale) as (label & newp & Hexog & _).
  destruct Hrd as [_ _ _ _ _ _ (psv & ps & Hpsv & Hps) _].
  set (m1 := with_prng (two_draws (prng m)) m) in *.
  set (info := <["price" := VNum newp]> (<["bias" := VStr label]> ∅)) in *.
  destruct (objective_fn_succeeds d info m1 sellv resource pv p Hsell Hres
              Hpv Hp) as (v & Hofn & Hv).
  set (m2 := with_objective
               (objective m + p * inject_Z (sell_size sellv resource))%Q m1).
  assert (Htr : transition_fn d info m2
                = (Ok (transition_update sellv resource ps newp), m2)).
  { apply transition_fn_succeeds with (psv := psv) (npv := VNum newp);
      try assumption; try reflexivity. intros _. exact Hres. }
  pose proof (build_tuple_first_missing (state_variable m)
                (transition_update sellv resource ps newp ∪ info)) as Hb.
  change (transition_update sellv resource ps newp ∪ info)
    with (next_info (if py_eq sellv (VNum 1) then VNum 0 else resource)
            ((1 - alpha) * ps + alpha * newp) newp label) in Hb.
  rewrite first_missing_next_info, Hk in Hb.
  unfold step.
  rewrite (bind_step _ _ _ _ _ Hexog).
  unfold bind at 1. unfold gets at 1.
  rewrite (bind_step _ _ _ _ _ Hofn).
  unfold bind at 1. unfold lift at 1. rewrite Hv.
  unfold bind at 1. unfold modify at 1.
  change (with_objective
            (objective m1 + p * inject_Z (sell_size sellv resource)) m1)
    with m2.
  rewrite (bind_step _ _ _ _ _ Htr).
  unfold build_state, bind, gets, lift. simpl.
  change (transition_update sellv resource ps newp ∪ info)
    with (next_info (if py_eq sellv (VNum 1) then VNum 0 else resource)
            ((1 - alpha) * ps + alpha * newp) newp label).
  rewrite Hb. reflexivity.
Qed.

End Failures.

Section Trajectories.

Context {G : Type} `{Generator G}.

Implicit Types (m : Model G) (d : namedtuple).

Lemma choose_bias_label ep (row : Series) coin nb :
  choose_bias ep row coin = Ok nb -> In (fst nb) regimes.
Proof.
  intros Hch. destruct (choose_bias_ok _ _ _ _ Hch) as (up & _ & Hcase).
  destruct Hcase as [(_ & -> & _) | (_ & neutral & _ & Hcase)];
    [simpl; tauto|].
  destruct Hcase as [(_ & ->) | (_ & -> & _)]; simpl; tauto.
Qed.

Lemma step_bias d m s' m' :
  conforms m -> step d m = (Ok s', m') -> bias_in_regimes s'.
Proof.
  intros Hconf Hrun.
  destruct (step_ok _ _ _ _ Hrun)
    as (info & m1 & sellv & resource & pv & p & psv & ps & newp & Hexog
        & _ & _ & _ & _ & _ & _ & _ & Hbuild & _).
  destruct (exog_info_fn_ok _ _ _ Hexog)
    as (df & b & row & nb & var & delta & pv' & p' & _ & Hb & _ & Hch & _
        & _ & _ & _ & ->).
  exists (fst nb). split; [|exact (choose_bias_label _ _ _ _ Hch)].
  assert (Hin : In "bias" (state_variable m)).
  { rewrite <- Hconf. eapply assoc_in_fst; eassumption. }
  rewrite (build_tuple_assoc _ _ _ "bias" Hbuild Hin).
  unfold transition_update. vm_compute. reflexivity.
Qed.

(** X9. The regime of every state [step] returns is one of Up, Neutral,
    Down, whatever the regime of the state before was called (it only has
    to be a row of the table); so is the regime of every state of a run. *)
Theorem bias_stays_a_regime :
  (forall d m s' m',
     conforms m -> step d m = (Ok s', m') -> bias_in_regimes s') /\
  (forall ds m ss m',
     conforms m -> run ds m = (Ok ss, m') -> Forall bias_in_regimes ss).
Proof.
  split; [exact step_bias|].
  intros ds. induction ds as [|d ds IH]; intros m ss m' Hconf Hrun.
  - apply run_nil_ok in Hrun. destruct Hrun as [-> _]. constructor.
  - apply run_cons_ok in Hrun.
    destruct Hrun as (s & m1 & ss' & Hstep & Hrun & ->).
    constructor; [exact (step_bias _ _ _ _ Hconf Hstep)|].
    exact (IH _ _ _ (step_conforms _ _ _ _ Hstep) Hrun).
Qed.



Lemma step_zero_resource_objective d m s' m' :
  conforms m -> resource_is_zero (state m) -> step d m = (Ok s', m') ->
  (objective m' == objective m)%Q.
Proof.
  intros Hconf (r & Hr & Hzero) Hrun.
  destruct (step_fields _ _ _ _ Hconf Hrun)
    as (sellv & resource & pv & p & psv & ps & delta & label & _ & Hres & _
        & _ & _ & _ & _ & _ & _ & _ & Hobj).
  rewrite Hr in Hres. injection Hres as <-.
  rewrite Hobj. unfold sell_size, py_ne. rewrite Hzero, andb_false_r.
  change (inject_Z 0) with 0%Q. ring.
Qed.

Lemma run_zero_resource_objective ds : forall m ss m',
  conforms m -> resource_is_zero (state m) -> run ds m = (Ok ss, m') ->
  (objective m' == objective m)%Q.
Proof.
  induction ds as [|d ds IH]; intros m ss m' Hconf Hzero Hrun.
  - apply run_nil_ok in Hrun. destruct Hrun as [_ ->]. reflexivity.
  - apply run_cons_ok in Hrun.
    destruct Hrun as (s & m1 & ss' & Hstep & Hrun & ->).
    pose proof (step_zero_resource_objective _ _ _ _ Hconf Hzero Hstep) as H1.
    pose proof (step_resource_zero _ _ _ _ Hconf Hstep Hzero) as Hz1.
    rewrite <- (step_state _ _ _ _ Hstep) in Hz1.
    rewrite (IH _ _ _ (step_conforms _ _ _ _ Hstep) Hz1 Hrun). exact H1.
Qed.

Lemma step_sale_resource d m s' m' :
  conforms m -> is_sale d -> step d m = (Ok s', m') ->
  resource_is (VNum 0) s'.
Proof.
  intros Hconf (v & Hv & Hone) Hrun.
  destruct (step_fields _ _ _ _ Hconf Hrun)
    as (sellv & resource & pv & p & psv & ps & delta & label & Hsell & _ & _
        & _ & _ & _ & Hres' & _).
  rewrite Hv in Hsell. injection Hsell as <-.
  rewrite Hone in Hres'. exact Hres'.
Qed.

(** X11. The asset is sold at most once: a step whose decision has
    [sell == 1] returns a state with resource 0, and from a state with
    resource 0 no run of steps, whatever its decisions, changes the
    objective. *)
Theorem nothing_is_added_after_a_sale :
  (forall d m s' m',
     conforms m -> is_sale d -> step d m = (Ok s', m') ->
     resource_is (VNum 0) s' /\ resource_is_zero s') /\
  (forall ds m ss m',
     conforms m -> resource_is_zero (state m) -> run ds m = (Ok ss, m') ->
     (objective m' == objective m)%Q).
Proof.
  split.
  - intros d m s' m' Hconf Hsale Hrun.
    pose proof (step_sale_resource _ _ _ _ Hconf Hsale Hrun) as Hres.
    split; [exact Hres|]. exists (VNum 0). split; [exact Hres | reflexivity].
  - intros ds m ss m'. apply run_zero_resource_objective.
Qed.

Lemma step_hold d m s' m' r :
  conforms m -> is_hold d -> resource_is r (state m) ->
  step d m = (Ok s', m') ->
  resource_is r s' /\ (objective m' == objective m)%Q.
Proof.
  intros Hconf (v & Hv & Hne) Hr Hrun.
  destruct (step_fields _ _ _ _ Hconf Hrun)
    as (sellv & resource & pv & p & psv & ps & delta & label & Hsell & Hres
        & _ & _ & _ & _ & Hres' & _ & _ & _ & Hobj).
  rewrite Hv in Hsell. injection Hsell as <-.
  unfold resource_is in *. rewrite Hr in Hres. injection Hres as <-.
  rewrite Hne in Hres'. split; [exact Hres'|].
  rewrite Hobj, (sell_size_hold _ _ Hne).
  change (inject_Z 0) with 0%Q. ring.
Qed.

Lemma run_holds ds : forall m ss m' r,
  conforms m -> Forall is_hold ds -> resource_is r (state m) ->
  run ds m = (Ok ss, m') ->
  Forall (resource_is r) ss /\ resource_is r (state m') /\
  (objective m' == objective m)%Q /\ conforms m'.
Proof.
  induction ds as [|d ds IH]; intros m ss m' r Hconf Hds Hr Hrun.
  - apply run_nil_ok in Hrun. destruct Hrun as [-> ->].
    split; [constructor|]. split; [exact Hr|].
    split; [reflexivity | exact Hconf].
  - apply run_cons_ok in Hrun.
    destruct Hrun as (s & m1 & ss' & Hstep & Hrun & ->).
    inversion Hds as [|? ? Hd Hds']; subst.
    destruct (step_hold _ _ _ _ _ Hconf Hd Hr Hstep) as [Hr1 Hobj1].
    assert (Hr1' := Hr1). rewrite <- (step_state _ _ _ _ Hstep) in Hr1'.
    destruct (IH _ _ _ _ (step_conforms _ _ _ _ Hstep) Hds' Hr1' Hrun)
      as (Hall & Hr' & Hobj & Hconf').
    split; [constructor; assumption|]. split; [exact Hr'|].
    split; [rewrite Hobj; exact Hobj1 | exact Hconf'].
Qed.

(** X12. A run whose decisions all have a [sell] that is not equal to 1
    keeps the resource it started with in every state and leaves the
    objective as it was; only prices, smoothed prices, regimes and the
    random source move. *)
Theorem run_of_holds_keeps_resource_and_objective ds m ss m' r :
  conforms m -> Forall is_hold ds -> resource_is r (state m) ->
  run ds m = (Ok ss, m') ->
  Forall (resource_is r) ss /\ (objective m' == objective m)%Q.
Proof.
  intros Hconf Hds Hr Hrun.
  destruct (run_holds _ _ _ _ _ Hconf Hds Hr Hrun) as (Hall & _ & Hobj & _).
  split; assumption.
Qed.

(** X13. The objective of a whole trajectory: when the asset is held at the
    start (a resource that is not 0), any number of holds followed by a
    decision with [sell == 1] and then by any decisions at all adds to the
    objective exactly the price of the state in which the sale was decided
    (the price before that step's transition), and every state from the
    sale on has resource 0. *)
Theorem objective_is_price_at_first_sale
    ds1 d ds2 m ss1 m1 s m2 ss2 m3 r pv p :
  conforms m ->
  resource_is r (state m) -> py_ne r (VNum 0) = true ->
  Forall is_hold ds1 -> is_sale d ->
  run ds1 m = (Ok ss1, m1) ->
  assoc "price" (state m1) = Some pv -> as_num pv = Some p ->
  step d m1 = (Ok s, m2) ->
  run ds2 m2 = (Ok ss2, m3) ->
  (objective m3 - objective m == p)%Q /\
  Forall resource_is_zero (s :: ss2).
Proof.
  intros Hconf Hr Hne Hds1 (v & Hv & Hone) Hrun1 Hpv Hp Hstep Hrun2.
  destruct (run_holds _ _ _ _ _ Hconf Hds1 Hr Hrun1)
    as (_ & Hr1 & Hobj1 & Hconf1).
  pose proof (step_objective_delta _ _ _ _ _ _ _ _ Hstep Hv Hr1 Hpv Hp)
    as Hadd.
  unfold reward in Hadd. rewrite Hone, Hne in Hadd. simpl in Hadd.
  assert (Hsale : is_sale d) by (exists v; split; assumption).
  pose proof (step_sale_resource _ _ _ _ Hconf1 Hsale Hstep) as Hres.
  assert (Hzero : resource_is_zero s)
    by (exists (VNum 0); split; [exact Hres | reflexivity]).
  assert (Hconf2 := step_conforms _ _ _ _ Hstep).
  assert (Hzero2 := Hzero). rewrite <- (step_state _ _ _ _ Hstep) in Hzero2.
  pose proof (run_zero_resource_objective _ _ _ _ Hconf2 Hzero2 Hrun2)
    as Hobj2.
  split; [lra|].
  constructor; [exact Hzero|].
  exact (run_invariant resource_is_zero step_resource_zero
           _ _ _ _ Hconf2 Hrun2 Hzero2).
Qed.


End Trajectories.

Section Exogenous.

Context {G : Type} `{Generator G}.

Implicit Types (m : Model G) (d : namedtuple).

(** X20. The generator looks parameters up only on the branch it takes.
    When the draw is below the Up threshold it needs the Up column and
    [UpStep] but neither the Neutral column nor [DownStep]: it returns with
    regime Up whether or not those exist. And when [UpStep] is missing it
    raises [KeyError] only then, after the uniform draw is gone. *)
Theorem up_branch_reads_only_up m df b row up :
  initial_args_exog_params m !! "biasdf" = Some (PFrame df) ->
  assoc "bias" (state m) = Some (VStr b) ->
  assoc b df = Some row ->
  assoc "Up" row = Some up ->
  (fst (uniform (prng m)) < up)%Q ->
  (forall qu qv pv p,
     num_param (initial_args_exog_params m) "UpStep" qu ->
     num_param (initial_args_exog_params m) "Variance" qv -> (0 <= qv)%Q ->
     assoc "price" (state m) = Some pv -> as_num pv = Some p ->
     exists newp,
       exog_info_fn m
       = (Ok (<["price" := VNum newp]> (<["bias" := VStr "Up"]> ∅)),
          with_prng (two_draws (prng m)) m)) /\
  (initial_args_exog_params m !! "UpStep" = None ->
   exog_info_fn m
   = (Raise (KeyError "UpStep"), with_prng (snd (uniform (prng m))) m)).
Proof.
  intros Hdf Hb Hrow Hup Hlt. apply Qltb_lt in Hlt. split.
  - intros qu qv pv p (vu & Hvu & Hqu) (vv & Hvv & Hqv) Hpos Hpv Hp.
    unfold exog_info_fn, choose_bias, series_getitem, bind, gets, lift,
      getitem, getattr, prng_uniform, prng_normal, normal, to_float, ret.
    rewrite Hdf. cbn [result_bind param_T]. rewrite Hb.
    cbn [frame_T_getitem]. rewrite Hrow. cbn [fst snd prng with_prng
      initial_args_exog_params state].
    rewrite Hup. cbn [result_bind]. rewrite Hlt, Hvu.
    cbn [result_bind snd fst]. rewrite Hvv. cbn [param_value].
    rewrite Hqu, Hqv.
    assert (Hn : Qltb qv 0 = false) by (apply Qltb_ge; exact Hpos).
    rewrite Hn. cbn [fst snd state with_prng]. rewrite Hpv, Hp.
    eexists. reflexivity.
  - intros Hnone.
    unfold exog_info_fn, choose_bias, series_getitem, bind, gets, lift,
      getitem, getattr, prng_uniform.
    rewrite Hdf. cbn [result_bind param_T]. rewrite Hb.
    cbn [frame_T_getitem]. rewrite Hrow. cbn [fst snd prng with_prng
      initial_args_exog_params state].
    rewrite Hup. cbn [result_bind]. rewrite Hlt, Hnone. reflexivity.
Qed.

(** X21. What the two functions take from the generator's output:
    [objective_fn] nothing at all, [transition_fn] the entry [price] and
    nothing else (its result is the same for any two dicts with the same
    [price] entry), and without that entry [transition_fn] raises
    [KeyError] once the decision and the state have been read. *)
Theorem exog_info_use d m :
  (forall info1 info2, objective_fn d info1 m = objective_fn d info2 m) /\
  (forall info1 info2,
     info1 !! "price" = info2 !! "price" ->
     transition_fn d info1 m = transition_fn d info2 m) /\
  (forall info sellv psv ps,
     assoc "sell" d = Some sellv ->
     (py_eq sellv (VNum 1) = false ->
      is_Some (assoc "resource" (state m))) ->
     assoc "price_smoothed" (state m) = Some psv -> as_num psv = Some ps ->
     info !! "price" = None ->
     transition_fn d info m = (Raise (KeyError "price"), m)).
Proof.
  split; [reflexivity|]. split.
  - intros info1 info2 Heq.
    unfold transition_fn, bind, lift, gets, getitem. rewrite Heq.
    reflexivity.
  - intros info sellv psv ps Hsell Hres Hpsv Hps Hnone.
    unfold transition_fn, bind, lift, gets, getattr, getitem, to_float, ret.
    rewrite Hsell.
    destruct (py_eq sellv (VNum 1)); simpl.
    + rewrite Hpsv, Hps, Hnone. reflexivity.
    + destruct (Hres eq_refl) as [r ->]. rewrite Hpsv, Hps, Hnone.
      reflexivity.
Qed.

(** Two generator calls from models with the same parameters, random
    source, regime and price return the same. *)
Lemma exog_info_fn_agree m1 m2 i1 i2 m1' m2' :
  exog_info_fn m1 = (Ok i1, m1') -> exog_info_fn m2 = (Ok i2, m2') ->
  initial_args_exog_params m1 = initial_args_exog_params m2 ->
  prng m1 = prng m2 ->
  assoc "bias" (state m1) = assoc "bias" (state m2) ->
  assoc "price" (state m1) = assoc "price" (state m2) ->
  i1 = i2 /\ prng m1' = prng m2'.
Proof.
  intros H1 H2 Hep Hg Hb Hp.
  destruct (exog_info_fn_ok _ _ _ H1)
    as (df1 & b1 & row1 & nb1 & var1 & delta1 & pv1 & p1 & Hdf1 & Hb1 & Hrow1
        & Hch1 & Hvar1 & Hn1 & Hpv1 & Hp1 & ->).
  destruct (exog_info_fn_ok _ _ _ H2)
    as (df2 & b2 & row2 & nb2 & var2 & delta2 & pv2 & p2 & Hdf2 & Hb2 & Hrow2
        & Hch2 & Hvar2 & Hn2 & Hpv2 & Hp2 & ->).
  rewrite Hep, Hdf2 in Hdf1. injection Hdf1 as <-.
  rewrite Hb, Hb2 in Hb1. injection Hb1 as <-.
  rewrite Hrow2 in Hrow1. injection Hrow1 as <-.
  rewrite Hep, Hg, Hch2 in Hch1. injection Hch1 as <-.
  rewrite Hep, Hvar2 in Hvar1. injection Hvar1 as <-.
  rewrite Hp, Hpv2 in Hpv1. injection Hpv1 as <-.
  rewrite Hp2 in Hp1. injection Hp1 as <-.
  destruct (prng_normal_ok _ _ _ _ _ Hn1)
    as (lv1 & sv1 & l1 & s1 & Hl1 & Hs1 & Hln1 & Hsn1 & _ & -> & ->).
  destruct (prng_normal_ok _ _ _ _ _ Hn2)
    as (lv2 & sv2 & l2 & s2 & Hl2 & Hs2 & Hln2 & Hsn2 & _ & -> & ->).
  rewrite Hl2 in Hl1. injection Hl1 as <-.
  rewrite Hs2 in Hs1. injection Hs1 as <-.
  rewrite Hln2 in Hln1. injection Hln1 as <-.
  rewrite Hsn2 in Hsn1. injection Hsn1 as <-.
  simpl. rewrite Hg. split; reflexivity.
Qed.

Lemma step_market d m s' m' :
  conforms m -> step d m = (Ok s', m') ->
  exists info m1 psv ps newp,
    exog_info_fn m = (Ok info, m1) /\ prng m' = prng m1 /\
    initial_args_exog_params m' = initial_args_exog_params m /\
    assoc "price_smoothed" (state m) = Some psv /\ as_num psv = Some ps /\
    info !! "price" = Some (VNum newp) /\
    assoc "price" s' = info !! "price" /\
    assoc "bias" s' = info !! "bias" /\
    assoc "price_smoothed" s'
    = Some (VNum ((1 - alpha) * ps + alpha * newp)).
Proof.
  intros Hconf Hrun.
  pose proof (step_frame d m) as Hcfg. rewrite Hrun in Hcfg.
  destruct Hcfg as (_ & _ & Hep & _). simpl in Hep.
  destruct (step_ok _ _ _ _ Hrun)
    as (info & m1 & sellv & resource & pv & p & psv & ps & newp & Hexog
        & _ & _ & Hpv & _ & Hpsv & Hps & Hnewp & Hbuild & Hm').
  destruct (exog_info_fn_ok _ _ _ Hexog)
    as (df & b & row & nb & var & delta & pv' & p' & _ & Hb & _ & _ & _
        & _ & _ & _ & Hinfo).
  assert (Hin : forall k v, assoc k (state m) = Some v ->
                            In k (state_variable m)).
  { intros k v0 Hk. rewrite <- Hconf. eapply assoc_in_fst; eassumption. }
  exists info, m1, psv, ps, newp.
  split; [exact Hexog|]. split; [rewrite Hm'; reflexivity|].
  split; [exact Hep|]. split; [exact Hpsv|]. split; [exact Hps|].
  split; [exact Hnewp|].
  rewrite (build_tuple_assoc _ _ _ "price" Hbuild (Hin _ _ Hpv)).
  rewrite (build_tuple_assoc _ _ _ "bias" Hbuild (Hin _ _ Hb)).
  rewrite (build_tuple_assoc _ _ _ "price_smoothed" Hbuild (Hin _ _ Hpsv)).
  subst info. unfold transition_update.
  rewrite lookup_insert_eq in Hnewp. injection Hnewp as <-.
  repeat apply conj; vm_compute; reflexivity.
Qed.

Lemma step_same_market d1 d2 m1 m2 s1 s2 m1' m2' :
  conforms m1 -> conforms m2 ->
  initial_args_exog_params m1 = initial_args_exog_params m2 ->
  prng m1 = prng m2 -> same_market (state m1) (state m2) ->
  step d1 m1 = (Ok s1, m1') -> step d2 m2 = (Ok s2, m2') ->
  same_market s1 s2 /\ prng m1' = prng m2' /\
  initial_args_exog_params m1' = initial_args_exog_params m2'.
Proof.
  intros Hc1 Hc2 Hep Hg (Hp & Hps & Hb) H1 H2.
  destruct (step_market _ _ _ _ Hc1 H1)
    as (i1 & n1 & psv1 & ps1 & np1 & He1 & Hg1 & Hep1 & Hpsv1 & Hpsn1 & Hnp1
        & Hpr1 & Hbi1 & Hsm1).
  destruct (step_market _ _ _ _ Hc2 H2)
    as (i2 & n2 & psv2 & ps2 & np2 & He2 & Hg2 & Hep2 & Hpsv2 & Hpsn2 & Hnp2
        & Hpr2 & Hbi2 & Hsm2).
  destruct (exog_info_fn_agree _ _ _ _ _ _ He1 He2 Hep Hg Hb Hp) as [<- Hgn].
  rewrite Hnp1 in Hnp2. injection Hnp2 as <-.
  rewrite Hps, Hpsv2 in Hpsv1. injection Hpsv1 as <-.
  rewrite Hpsn2 in Hpsn1. injection Hpsn1 as <-.
  split; [|split; congruence].
  unfold same_market. rewrite Hpr1, Hpr2, Hbi1, Hbi2, Hsm1, Hsm2.
  repeat split.
Qed.

Lemma run_same_market ds1 : forall ds2 m1 m2 ss1 ss2 m1' m2',
  length ds1 = length ds2 ->
  conforms m1 -> conforms m2 ->
  initial_args_exog_params m1 = initial_args_exog_params m2 ->
  prng m1 = prng m2 -> same_market (state m1) (state m2) ->
  run ds1 m1 = (Ok ss1, m1') -> run ds2 m2 = (Ok ss2, m2') ->
  Forall2 same_market ss1 ss2 /\ prng m1' = prng m2'.
Proof.
  induction ds1 as [|d1 ds1 IH];
    intros [|d2 ds2] m1 m2 ss1 ss2 m1' m2' Hlen Hc1 Hc2 Hep Hg Hsm H1 H2;
    try discriminate.
  - apply run_nil_ok in H1. apply run_nil_ok in H2.
    destruct H1 as [-> ->], H2 as [-> ->]. split; [constructor | exact Hg].
  - apply run_cons_ok in H1. apply run_cons_ok in H2.
    destruct H1 as (s1 & n1 & r1 & Hs1 & Hr1 & ->).
    destruct H2 as (s2 & n2 & r2 & Hs2 & Hr2 & ->).
    destruct (step_same_market _ _ _ _ _ _ _ _ Hc1 Hc2 Hep Hg Hsm Hs1 Hs2)
      as (Hsm' & Hg' & Hep').
    assert (Hsm'' := Hsm').
    rewrite <- (step_state _ _ _ _ Hs1), <- (step_state _ _ _ _ Hs2)
      in Hsm''.
    injection Hlen as Hlen.
    destruct (IH ds2 n1 n2 r1 r2 m1' m2' Hlen
                (step_conforms _ _ _ _ Hs1) (step_conforms _ _ _ _ Hs2)
                Hep' Hg' Hsm'' Hr1 Hr2) as [Hall Hgf].
    split; [constructor; assumption | exact Hgf].
Qed.

(** X22. The market is exogenous: the prices, smoothed prices and regimes
    of a run, and the random source it ends with, do not depend on the
    decisions. Two runs of the same model over two sequences of decisions
    of the same length that both return go through the same market, state
    by state; the decisions only show in the resource and the objective. *)
Theorem market_does_not_depend_on_decisions ds1 ds2 m ss1 ss2 m1 m2 :
  conforms m -> length ds1 = length ds2 ->
  run ds1 m = (Ok ss1, m1) -> run ds2 m = (Ok ss2, m2) ->
  Forall2 same_market ss1 ss2 /\ prng m1 = prng m2.
Proof.
  intros Hconf Hlen H1 H2.
  apply (run_same_market ds1 ds2 m m ss1 ss2 m1 m2); try assumption;
    try reflexivity.
  repeat split.
Qed.

End Exogenous.

Section Bookkeeping.

Context {G : Type} `{Generator G}.

Implicit Types (m : Model G) (d : namedtuple).

Variable f : Model G -> Model G.

Lemma commutes_ret {A} (a : A) : commutes_with f (ret a).
Proof. intros m. reflexivity. Qed.

Lemma commutes_lift {A} (r : result A) : commutes_with f (lift r).
Proof. intros m. reflexivity. Qed.

Lemma commutes_gets {A} (g : Model G -> A) :
  (forall m, g (f m) = g m) -> commutes_with f (gets g).
Proof. intros Hg m. unfold gets. simpl. rewrite Hg. reflexivity. Qed.

Lemma commutes_modify (h : Model G -> Model G) :
  (forall m, h (f m) = f (h m)) -> commutes_with f (modify h).
Proof. intros Hh m. unfold modify. simpl. rewrite Hh. reflexivity. Qed.

Lemma commutes_bind {A B} (c : prog G A) (k : A -> prog G B) :
  commutes_with f c -> (forall a, commutes_with f (k a)) ->
  commutes_with f (bind c k).
Proof.
  intros Hc Hk m. unfold bind. rewrite Hc.
  destruct (c m) as [[a|e] m1]; simpl.
  - apply Hk.
  - reflexivity.
Qed.

Lemma commutes_if {A} (b : bool) (c1 c2 : prog G A) :
  commutes_with f c1 -> commutes_with f c2 ->
  commutes_with f (if b then c1 else c2).
Proof. destruct b; auto. Qed.

End Bookkeeping.

Section BookkeepingOfStep.

Context {G : Type} `{Generator G}.

Implicit Types (m : Model G) (d : namedtuple).

Variables (seed T : Z) (s0 : gmap string value) (dv : list string).

Ltac commute_step :=
  first
    [ apply commutes_ret
    | apply commutes_lift
    | apply commutes_gets; intros ?; reflexivity
    | apply commutes_modify; intros ?; reflexivity
    | apply commutes_if
    | apply commutes_bind; [ | intros ?] ].

Ltac commute := repeat commute_step.

Lemma prng_uniform_commutes :
  commutes_with (G := G) (with_bookkeeping seed T s0 dv)
    prng_uniform.
Proof. intros m. reflexivity. Qed.

Lemma prng_normal_commutes loc scale :
  commutes_with (G := G) (with_bookkeeping seed T s0 dv)
    (prng_normal loc scale).
Proof.
  intros m. unfold prng_normal.
  destruct (param_value loc); [|reflexivity].
  destruct (param_value scale); reflexivity.
Qed.

Lemma exog_info_fn_commutes :
  commutes_with (G := G) (with_bookkeeping seed T s0 dv)
    exog_info_fn.
Proof.
  unfold exog_info_fn.
  repeat first
    [ apply prng_uniform_commutes | apply prng_normal_commutes
    | commute_step ].
Qed.

Lemma objective_fn_commutes d info :
  commutes_with (G := G) (with_bookkeeping seed T s0 dv)
    (objective_fn d info).
Proof. unfold objective_fn. commute. Qed.

Lemma transition_fn_commutes d info :
  commutes_with (G := G) (with_bookkeeping seed T s0 dv)
    (transition_fn d info).
Proof. unfold transition_fn. commute. Qed.

Lemma step_commutes d :
  commutes_with (G := G) (with_bookkeeping seed T s0 dv)
    (step d).
Proof.
  unfold step, build_state. cbv zeta.
  repeat first
    [ apply exog_info_fn_commutes | apply objective_fn_commutes
    | apply transition_fn_commutes | commute_step ].
Qed.

Lemma run_commutes ds :
  commutes_with (G := G) (with_bookkeeping seed T s0 dv)
    (run ds).
Proof.
  induction ds as [|d ds IH]; simpl.
  - apply commutes_ret.
  - apply commutes_bind; [apply step_commutes | intros s].
    apply commutes_bind; [exact IH | intros ss]. apply commutes_ret.
Qed.

(** X23. Steps never read the bookkeeping of the model: the seed and the
    horizon [T] recorded in [initial_args], the recorded initial state and
    the decision schema. Replacing them by anything changes nothing in
    what a step or a run returns or raises, nor in the state, objective
    and random source it leaves; in particular nothing stops a run at [T]
    steps. *)
Theorem steps_ignore_bookkeeping d ds m :
  step d (with_bookkeeping seed T s0 dv m)
  = (fst (step d m), with_bookkeeping seed T s0 dv (snd (step d m))) /\
  run ds (with_bookkeeping seed T s0 dv m)
  = (fst (run ds m), with_bookkeeping seed T s0 dv (snd (run ds m))).
Proof.
  split; [apply step_commutes | apply run_commutes].
Qed.

End BookkeepingOfStep.

(** ** Reproducibility *)

Section Reproducibility.

Context {G : Type} `{Generator G}.

Implicit Types (m : Model G).



Lemma same_reads_trans m1 m2 m3 :
  same_reads m1 m2 -> same_reads m2 m3 -> same_reads m1 m3.
Proof.
  intros (? & ? & ? & ? & ?) (? & ? & ? & ? & ?).
  repeat apply conj; congruence.
Qed.




End Reproducibility.


(** ** The objective along a trajectory *)

Section ObjectiveAlongRuns.

Context {G : Type} `{Generator G}.

Implicit Types (m : Model G) (d : namedtuple).



End ObjectiveAlongRuns.


(** The constructor accepts an initial price of -5; selling at the first
    step then takes the objective from 0 to -5. *)
Lemma first_sale_at_negative_price_lowers_objective :
  exists s m',
    fst negative_price_init = Ok negative_price_model /\
    assoc "price" (state negative_price_model) = Some (VNum (-5)) /\
    (objective negative_price_model == 0)%Q /\
    step sell_now negative_price_model = (Ok s, m') /\
    (objective m' == -5)%Q /\
    (objective m' < objective negative_price_model)%Q /\
    ~ (0 <= objective m' - objective negative_price_model)%Q.
Proof.
  do 2 eexists.
  repeat apply conj; try (vm_compute; reflexivity).
  vm_compute. intros Hle. apply Hle. reflexivity.
Qed.

(** Constructed from the dict the first construction was given, with the
    same seed and arguments, the second model takes another path on the
    same decisions: its table is cumulated twice. *)
Lemma second_run_from_same_dict_differs :
  exists ss1 o1 ss2 o2,
    run_then_run_again (G := lcg) demo_state_variable demo_decision_variable
      demo_state_0 demo_exog_0 default_T default_seed scenario_decisions
    = Some ((Ok ss1, o1), (Ok ss2, o2)) /\
    ss1 <> ss2 /\ ~ (o1 == o2)%Q.
Proof.
  eexists _, _, _, _. split; [vm_compute; reflexivity|].
  split; [intros Heq; discriminate Heq | vm_compute; discriminate].
Qed.

(** When both models are constructed before either runs, the first one
    reads the twice cumulated table too, and the two runs agree. *)
Remark construct_twice_then_run_agree sv dv s0 e0 T seed ds r1 r2 :
  construct_twice_then_run (G := lcg) sv dv s0 e0 T seed ds = Some (r1, r2) ->
  r1 = r2.
Proof.
  unfold construct_twice_then_run.
  destruct (init sv dv s0 e0 T seed) as [[m1|x1] e1] eqn:H1; [|discriminate].
  destruct (init sv dv s0 e1 T seed) as [[m2|x2] e2] eqn:H2; [|discriminate].
  intros [= <- <-].
  destruct (init_ok _ _ _ _ _ _ _ _ H1)
    as (df1 & st1 & _ & _ & _ & Hst1 & _ & -> & ->).
  destruct (init_ok _ _ _ _ _ _ _ _ H2)
    as (df2 & st2 & _ & _ & _ & Hst2 & _ & -> & ->).
  rewrite Hst1 in Hst2. injection Hst2 as <-. reflexivity.
Qed.

(** ** Instances of the further properties *)

Ltac solve_readable :=
  constructor;
  [ eexists; split; [vm_compute; reflexivity|];
    intros r [<-|[<-|[<-|[]]]]; eexists _, _, _;
    repeat apply conj; vm_compute; reflexivity
  | eexists _, _; split; vm_compute; reflexivity
  | eexists _, _; split; vm_compute; reflexivity
  | eexists _, _; split; vm_compute; reflexivity
  | eexists; vm_compute; reflexivity
  | eexists _, _; split; vm_compute; reflexivity
  | eexists _, _; split; vm_compute; reflexivity
  | exists "Neutral"; split; [vm_compute; reflexivity | simpl; tauto] ].

Lemma demo_model_readable : readable demo_model /\ scale_nonneg demo_model.
Proof. exact (well_formed_readable demo_model demo_model_well_formed). Qed.

Lemma negative_scale_model_readable : readable negative_scale_model.
Proof. solve_readable. Qed.

Lemma volume_model_readable :
  readable volume_model /\ scale_nonneg volume_model.
Proof.
  split; [solve_readable|].
  intros q (v & Hv & Hq). vm_compute in Hv. injection Hv as <-.
  vm_compute in Hq. injection Hq as <-. vm_compute. discriminate.
Qed.

Lemma init_builds_witness :
  exists m e1,
    demo_init = (Ok m, e1) /\ (objective m == 0)%Q /\
    prng m = default_rng default_seed /\
    getattr (state m) "price" = Ok (VNum 10).
Proof.
  exists demo_model, (<["biasdf" := PFrame (cumsum_axis1 demo_biasdf)]>
                        demo_exog_0).
  destruct (init_builds demo_state_variable demo_decision_variable
              demo_state_0 demo_exog_0 default_T default_seed demo_model _
              demo_init_ok)
    as (Hobj & Hprng & _ & _ & _ & _ & _ & _ & Hget & _).
  split; [exact demo_init_ok|]. split; [exact Hobj|]. split; [exact Hprng|].
  rewrite Hget; [vm_compute; reflexivity | simpl; tauto].
Defined.

Lemma init_again_cumulates_again_witness :
  exists m2 e2,
    init (G := lcg) demo_state_variable demo_decision_variable demo_state_0
      (<["biasdf" := PFrame (cumsum_axis1 demo_biasdf)]> demo_exog_0)
      default_T default_seed = (Ok m2, e2) /\
    initial_args_exog_params m2 !! "biasdf"
    = Some (PFrame (cumsum_axis1 (cumsum_axis1 demo_biasdf))).
Proof.
  destruct (init_again_cumulates_again demo_state_variable
              demo_decision_variable demo_state_0 demo_exog_0 default_T
              default_seed demo_model _ demo_init_ok)
    as (df & m2 & e2 & Hdf & Hinit & Hlook & _).
  vm_compute in Hdf. injection Hdf as <-.
  exists m2, e2. split; [exact Hinit | exact Hlook].
Defined.

Lemma exog_info_fn_price_change_witness :
  exists info m',
    exog_info_fn demo_model = (Ok info, m') /\
    info !! "bias" = Some (VStr "Neutral") /\
    m' = with_prng (two_draws (prng demo_model)) demo_model.
Proof.
  eexists _, _. split; [vm_compute; reflexivity|].
  edestruct (exog_info_fn_price_change demo_model)
    as (label & dv & drift & sv & scale & Hbias & _ & _ & _ & _ & _ & _
        & Hm');
    [vm_compute; reflexivity .. |].
  split; [vm_compute; reflexivity | exact Hm'].
Defined.

Lemma threshold_at_one_closes_selection_witness :
  exists info m',
    exog_info_fn always_up_model = (Ok info, m') /\
    info !! "bias" = Some (VStr "Up").
Proof.
  eexists _, _. split; [vm_compute; reflexivity|].
  edestruct (threshold_at_one_closes_selection always_up_model)
    as [Hup _]; [vm_compute; reflexivity .. |].
  apply Hup. vm_compute. discriminate.
Defined.

Lemma bias_stays_a_regime_witness :
  exists ss m',
    run scenario_decisions demo_model = (Ok ss, m') /\
    Forall bias_in_regimes ss.
Proof.
  destruct (run_succeeds scenario_decisions demo_model
              demo_model_well_formed demo_decisions_have_sell)
    as (ss & m' & Hrun & _).
  exists ss, m'. split; [exact Hrun|].
  destruct (@bias_stays_a_regime lcg _) as [_ Hall].
  exact (Hall _ _ _ _ demo_model_conforms Hrun).
Defined.


Lemma nothing_is_added_after_a_sale_witness :
  exists s m1 ss m2,
    step sell_now demo_model = (Ok s, m1) /\
    run scenario_decisions m1 = (Ok ss, m2) /\
    (objective m2 == objective m1)%Q.
Proof.
  do 4 eexists. split; [vm_compute; reflexivity|].
  split; [vm_compute; reflexivity|].
  destruct (@nothing_is_added_after_a_sale lcg _) as [_ Hrun].
  eapply (Hrun scenario_decisions).
  - vm_compute. reflexivity.
  - eexists. split; vm_compute; reflexivity.
  - vm_compute. reflexivity.
Defined.

Lemma all_hold_decisions_hold : Forall is_hold all_hold_decisions.
Proof. repeat constructor; eexists; split; reflexivity. Qed.

Lemma run_of_holds_keeps_resource_and_objective_witness :
  exists ss m',
    run all_hold_decisions demo_model = (Ok ss, m') /\
    Forall (resource_is (VNum 1)) ss /\
    (objective m' == objective demo_model)%Q.
Proof.
  do 2 eexists. split; [vm_compute; reflexivity|].
  eapply (run_of_holds_keeps_resource_and_objective all_hold_decisions
            demo_model).
  - exact demo_model_conforms.
  - exact all_hold_decisions_hold.
  - vm_compute. reflexivity.
  - vm_compute. reflexivity.
Defined.

Lemma objective_is_price_at_first_sale_witness :
  exists ss1 m1 s m2 ss2 m3,
    run [hold_now; hold_now] demo_model = (Ok ss1, m1) /\
    step sell_now m1 = (Ok s, m2) /\
    run [sell_now; hold_now] m2 = (Ok ss2, m3) /\
    (objective m3 - objective demo_model == 11)%Q /\
    Forall resource_is_zero (s :: ss2).
Proof.
  do 6 eexists. split; [vm_compute; reflexivity|].
  split; [vm_compute; reflexivity|].
  split; [vm_compute; reflexivity|].
  edestruct (objective_is_price_at_first_sale [hold_now; hold_now] sell_now
               [sell_now; hold_now] demo_model) as [Hobj Hall];
    [ exact demo_model_conforms
    | vm_compute; reflexivity
    | vm_compute; reflexivity
    | repeat constructor; eexists; split; reflexivity
    | eexists; split; reflexivity
    | vm_compute; reflexivity .. | ].
  split; [rewrite Hobj; vm_compute; reflexivity | exact Hall].
Defined.

Lemma step_without_sell_witness :
  step no_sell_decision demo_model
  = (Raise (AttributeError "sell"),
     with_prng (two_draws (prng demo_model)) demo_model).
Proof.
  apply step_without_sell.
  - exact (proj1 demo_model_readable).
  - exact (proj2 demo_model_readable).
  - reflexivity.
Defined.

Lemma step_unknown_regime_witness :
  step hold_now sideways_model = (Raise (KeyError "Sideways"), sideways_model).
Proof.
  eapply step_unknown_regime; vm_compute; reflexivity.
Defined.

Lemma step_negative_scale_witness :
  step hold_now negative_scale_model
  = (Raise ValueError,
     with_prng (snd (uniform (prng negative_scale_model)))
       negative_scale_model).
Proof.
  apply (step_negative_scale negative_scale_model hold_now (-1)).
  - exact negative_scale_model_readable.
  - eexists. split; vm_compute; reflexivity.
  - vm_compute. reflexivity.
Defined.

Lemma step_unknown_state_field_witness :
  step sell_now volume_model
  = (Raise (KeyError "volume"),
     with_objective
       (objective volume_model
        + 10 * inject_Z (sell_size (VNum 1) (VNum 1)))%Q
       (with_prng (two_draws (prng volume_model)) volume_model)).
Proof.
  apply (step_unknown_state_field volume_model sell_now "volume" (VNum 1)
           (VNum 1) (VNum 10) 10).
  - exact (proj1 volume_model_readable).
  - exact (proj2 volume_model_readable).
  - vm_compute. reflexivity.
  - vm_compute. reflexivity.
  - vm_compute. reflexivity.
  - vm_compute. reflexivity.
  - vm_compute. reflexivity.
Defined.


Lemma up_branch_reads_only_up_witness :
  exists newp,
    exog_info_fn always_up_model
    = (Ok (<["price" := VNum newp]> (<["bias" := VStr "Up"]> ∅)),
       with_prng (two_draws (prng always_up_model)) always_up_model).
Proof.
  edestruct (up_branch_reads_only_up always_up_model) as [Hret _];
    [vm_compute; reflexivity .. |].
  eapply (Hret 1%Q 2%Q).
  - eexists. split; vm_compute; reflexivity.
  - eexists. split; vm_compute; reflexivity.
  - vm_compute. discriminate.
  - vm_compute. reflexivity.
  - vm_compute. reflexivity.
Defined.

Lemma market_does_not_depend_on_decisions_witness :
  exists ss1 m1 ss2 m2,
    run scenario_decisions demo_model = (Ok ss1, m1) /\
    run all_hold_decisions demo_model = (Ok ss2, m2) /\
    Forall2 same_market ss1 ss2 /\ prng m1 = prng m2.
Proof.
  do 4 eexists. split; [vm_compute; reflexivity|].
  split; [vm_compute; reflexivity|].
  eapply (market_does_not_depend_on_decisions scenario_decisions
            all_hold_decisions demo_model).
  - exact demo_model_conforms.
  - reflexivity.
  - vm_compute. reflexivity.
  - vm_compute. reflexivity.
Defined.
